(** * SSL certificate monitor: a shallow embedding of [src/ssl_checker]

    The four scripts [ssl_check.py], [ssl_checkV2.py], [ssl_checkV3.py] and
    [ssl_checker_with_server_and_website.py] share the functions
    [check_ssl_certificate] and [write_to_file] verbatim; they differ in how
    [main] obtains its configuration and in the wording of the messages.

    Python [str] values are modelled by [string]; a character stands for the
    code point of the same number (0..255).  Python [int] is [Z]. *)

From Stdlib Require Import ZArith Ascii String List Lia Bool.
From stdpp Require Import base option list strings pretty gmap.

Local Open Scope Z_scope.


(** ** Python's built-in string operations *)

Module Py.

(** [str.isspace] on one character: the white space of Unicode below 256. *)
Definition isspace (c : ascii) : bool :=
  let n := nat_of_ascii c in
  ((9 <=? n)%nat && (n <=? 13)%nat)
  || ((28 <=? n)%nat && (n <=? 32)%nat)
  || (n =? 133)%nat || (n =? 160)%nat.

Fixpoint lstrip (s : string) : string :=
  match s with
  | String c r => if isspace c then lstrip r else s
  | EmptyString => EmptyString
  end.

Fixpoint rstrip (s : string) : string :=
  match s with
  | String c r =>
      match rstrip r with
      | EmptyString => if isspace c then EmptyString else String c EmptyString
      | r' => String c r'
      end
  | EmptyString => EmptyString
  end.

(** [s.strip()] *)
Definition strip (s : string) : string := rstrip (lstrip s).

(** [c in s] for a one-character string [c]. *)
Fixpoint contains (c : ascii) (s : string) : bool :=
  match s with
  | String d r => if Ascii.eqb d c then true else contains c r
  | EmptyString => false
  end.

(** The split of [s] at its last occurrence of [sep], if there is one. *)
Fixpoint rsplit_last (sep : ascii) (s : string) : option (string * string) :=
  match s with
  | EmptyString => None
  | String c r =>
      match rsplit_last sep r with
      | Some (a, b) => Some (String c a, b)
      | None => if Ascii.eqb c sep then Some (EmptyString, r) else None
      end
  end.

(** [s.rsplit(sep, 1)] *)
Definition rsplit1 (sep : ascii) (s : string) : list string :=
  match rsplit_last sep s with
  | Some (a, b) => [a; b]
  | None => [s]
  end.

(** [s.replace(a, b)] for one-character strings [a] and [b]. *)
Fixpoint replace (a b : ascii) (s : string) : string :=
  match s with
  | String c r => String (if Ascii.eqb c a then b else c) (replace a b r)
  | EmptyString => EmptyString
  end.

(** [s * n] *)
Fixpoint repeat (s : string) (n : nat) : string :=
  match n with
  | O => EmptyString
  | S k => s +:+ repeat s k
  end.

(** [str(n)], which is also how an f-string renders an [int], for an [n]
    of at most [max_str_digits] digits (see below); Python raises
    [ValueError] for a longer one, and no script formats such a number. *)
Definition str (n : Z) : string := pretty n.

Definition isdigit (c : ascii) : bool :=
  let n := nat_of_ascii c in (48 <=? n)%nat && (n <=? 57)%nat.

Definition digit_value (c : ascii) : Z := Z.of_nat (nat_of_ascii c) - 48.

(** The digits of a decimal literal: one or more digits, where single
    underscores may separate digits.  [seen] tells whether the previous
    character was a digit. *)
Fixpoint int_digits (acc : Z) (seen : bool) (s : string) : option Z :=
  match s with
  | EmptyString => if seen then Some acc else None
  | String c r =>
      if isdigit c then int_digits (10 * acc + digit_value c) true r
      else if Ascii.eqb c "_" && seen then int_digits acc false r
      else None
  end.

(** The white space [int] accepts around a literal.  It is not that of
    [str.strip]: the separators 28..31 are not part of it. *)
Definition int_space (c : ascii) : bool :=
  let n := nat_of_ascii c in
  ((9 <=? n)%nat && (n <=? 13)%nat)
  || (n =? 32)%nat || (n =? 133)%nat || (n =? 160)%nat.

Fixpoint int_lstrip (s : string) : string :=
  match s with
  | String c r => if int_space c then int_lstrip r else s
  | EmptyString => EmptyString
  end.

Fixpoint int_rstrip (s : string) : string :=
  match s with
  | String c r =>
      match int_rstrip r with
      | EmptyString => if int_space c then EmptyString else String c EmptyString
      | r' => String c r'
      end
  | EmptyString => EmptyString
  end.

(** [sys.int_info.default_max_str_digits]: the longest decimal text that
    [int] and [str] convert; the scripts leave the limit as it is. *)
Definition max_str_digits : nat := 4300.

Fixpoint count_digits (s : string) : nat :=
  match s with
  | String c r => ((if isdigit c then 1 else 0) + count_digits r)%nat
  | EmptyString => 0%nat
  end.

(** An unsigned literal: refused when it has more than [max_str_digits]
    digits. *)
Definition int_literal (t : string) : option Z :=
  if (count_digits t <=? max_str_digits)%nat then int_digits 0 false t
  else None.

(** [int(s)]: [None] stands for [ValueError].  White space around the
    literal is dropped and one sign is accepted. *)
Definition int (s : string) : option Z :=
  match int_rstrip (int_lstrip s) with
  | String "+" r => int_literal r
  | String "-" r => Z.opp <$> int_literal r
  | t => int_literal t
  end.

End Py.

(** ** The world a script runs in *)

(** Exceptions that occur in the scripts.  [KeyboardInterrupt] and
    [SystemExit] derive from [BaseException] only; the others are
    subclasses of [Exception]. *)
Inductive exn :=
  | KeyboardInterrupt
  | SystemExit (code : Z)
  | TimeoutExpired (msg : string)
  | ValueError (msg : string)
  | UnboundLocalError (msg : string)
  | OverflowError (msg : string)
  | OSError (msg : string).

Definition is_Exception (e : exn) : bool :=
  match e with
  | KeyboardInterrupt | SystemExit _ => false
  | _ => true
  end.

(** [str(e)] *)
Definition exn_str (e : exn) : string :=
  match e with
  | KeyboardInterrupt => ""
  | SystemExit c => Py.str c
  | TimeoutExpired m | ValueError m | UnboundLocalError m | OverflowError m
  | OSError m => m
  end.

(** What [subprocess.run(cmd, capture_output=True, text=True, timeout=30)]
    can do: the child ends within the timeout, it does not
    ([TimeoutExpired] is raised), or the call fails with another exception
    (an [OSError], for instance when [bash] cannot be started); [msg] is the
    text of the exception. *)
Inductive proc_behaviour :=
  | Exits (returncode : Z) (stdout stderr : string)
  | TimesOut (msg : string)
  | Fails (msg : string).

Record CompletedProcess := {
  returncode : Z;
  proc_stdout : string;
  proc_stderr : string
}.

Record datetime := {
  year : nat; month : nat; day : nat;
  hour : nat; minute : nat; second : nat
}.

(** The kinds of primitive operation; the operator's Ctrl+C is delivered
    when one of them is about to run. *)
Inductive prim_kind :=
  | Assign | Clock | Print | FileAppend | Spawn | Wait | Sleep.

(** The environment of one run.  Primitive operations are numbered from 0
    in the order in which they are begun. *)
Record Env := {
  (** the operation during which Ctrl+C arrives, if it ever does *)
  env_sigint : option nat;
  (** what the child started by operation [n] does *)
  env_run : nat -> proc_behaviour;
  (** whether the file of the append of operation [n] cannot be opened, and
      with which text *)
  env_fs : nat -> option string;
  (** [datetime.now()] at operation [n] *)
  env_now : nat -> datetime;
  (** whether the system refuses the long sleep of operation [n], and with
      which text *)
  env_sleep : nat -> option string
}.

Record State := {
  ops : nat;                          (* primitive operations begun *)
  console : list string;              (* texts written to standard output *)
  files : gmap string (list string);  (* texts appended to each file *)
  spawned : list (list string * Z);   (* argv and timeout of every child started *)
  slept : list Z;                     (* arguments of the completed sleeps *)
  inspections : nat;                  (* calls of check_ssl_certificate *)
  interrupted : option prim_kind;     (* the operation Ctrl+C pre-empted *)
  check_count : option nat            (* main's local variable, None while unbound *)
}.

Definition initial : State :=
  {| ops := 0; console := []; files := ∅; spawned := []; slept := [];
     inspections := 0; interrupted := None; check_count := None |}.

(** ** Computations: environment, state, exceptions, and fuel for [while True] *)

Inductive outcome (A : Type) :=
  | Ret (a : A)
  | Raise (e : exn)
  | Running.   (* the fuel of a [while True] loop ran out: still running *)
Arguments Ret {A} a.
Arguments Raise {A} e.
Arguments Running {A}.

Definition M (A : Type) : Type := Env -> State -> outcome A * State.

Definition ret {A} (a : A) : M A := fun _ st => (Ret a, st).

Definition bind {A B} (m : M A) (k : A -> M B) : M B :=
  fun env st =>
    match m env st with
    | (Ret a, st') => k a env st'
    | (Raise e, st') => (Raise e, st')
    | (Running, st') => (Running, st')
    end.

Definition raise {A} (e : exn) : M A := fun _ st => (Raise e, st).

Declare Scope py_scope.
Delimit Scope py_scope with py.
Notation "'let*' x := m 'in' k" := (bind m (fun x => k))
  (at level 10, x name, m at level 100, k at level 200) : py_scope.
Notation "'let*' ' p := m 'in' k" := (bind m (fun x => match x with p => k end))
  (at level 10, p pattern, m at level 100, k at level 200) : py_scope.
Notation "m >> k" := (bind m (fun _ => k))
  (at level 90, right associativity) : py_scope.
Local Open Scope py_scope.

(** [try: body except C1: h1 except C2: h2 ...]: the first clause whose
    class test accepts the exception handles it. *)
Fixpoint select {A} (clauses : list ((exn -> bool) * (exn -> M A))) (e : exn)
    : option (M A) :=
  match clauses with
  | [] => None
  | (accepts, handler) :: rest =>
      if accepts e then Some (handler e) else select rest e
  end.

Definition try_except {A} (body : M A)
    (clauses : list ((exn -> bool) * (exn -> M A))) : M A :=
  fun env st =>
    match body env st with
    | (Raise e, st') =>
        match select clauses e with
        | Some h => h env st'
        | None => (Raise e, st')
        end
    | r => r
    end.

(** [while True: body], unfolded [fuel] times. *)
Fixpoint while_true {A} (fuel : nat) (body : M unit) : M A :=
  match fuel with
  | O => fun _ st => (Running, st)
  | S f => bind body (fun _ => while_true f body)
  end.

Definition is_KeyboardInterrupt (e : exn) : bool :=
  match e with KeyboardInterrupt => true | _ => false end.
Definition is_TimeoutExpired (e : exn) : bool :=
  match e with TimeoutExpired _ => true | _ => false end.
Definition is_ValueError (e : exn) : bool :=
  match e with ValueError _ => true | _ => false end.

Definition begin_op (st : State) : State :=
  {| ops := S (ops st); console := console st; files := files st;
     spawned := spawned st; slept := slept st; inspections := inspections st;
     interrupted := interrupted st; check_count := check_count st |}.

Definition mark_interrupted (k : prim_kind) (st : State) : State :=
  {| ops := ops st; console := console st; files := files st;
     spawned := spawned st; slept := slept st; inspections := inspections st;
     interrupted := Some k; check_count := check_count st |}.

Definition sigint_at (env : Env) (n : nat) : bool :=
  match env_sigint env with
  | Some k => Nat.eqb k n
  | None => false
  end.

(** A primitive operation of kind [k]: Ctrl+C pre-empts it when it arrives
    now, otherwise [act] runs; [act] is given the operation's number. *)
Definition prim {A} (k : prim_kind) (act : nat -> M A) : M A :=
  fun env st =>
    if sigint_at env (ops st)
    then (Raise KeyboardInterrupt, mark_interrupted k (begin_op st))
    else act (ops st) env (begin_op st).

(** *** Primitive operations *)

Definition add_console (x : string) (st : State) : State :=
  {| ops := ops st; console := console st ++ [x]; files := files st;
     spawned := spawned st; slept := slept st; inspections := inspections st;
     interrupted := interrupted st; check_count := check_count st |}.

Definition add_file (filename x : string) (st : State) : State :=
  {| ops := ops st; console := console st;
     files := <[filename := default [] (files st !! filename) ++ [x]]> (files st);
     spawned := spawned st; slept := slept st; inspections := inspections st;
     interrupted := interrupted st; check_count := check_count st |}.

Definition add_spawned (c : list string * Z) (st : State) : State :=
  {| ops := ops st; console := console st; files := files st;
     spawned := spawned st ++ [c]; slept := slept st;
     inspections := inspections st;
     interrupted := interrupted st; check_count := check_count st |}.

Definition add_slept (secs : Z) (st : State) : State :=
  {| ops := ops st; console := console st; files := files st;
     spawned := spawned st; slept := slept st ++ [secs];
     inspections := inspections st;
     interrupted := interrupted st; check_count := check_count st |}.

Definition add_inspection (st : State) : State :=
  {| ops := ops st; console := console st; files := files st;
     spawned := spawned st; slept := slept st;
     inspections := S (inspections st);
     interrupted := interrupted st; check_count := check_count st |}.

Definition set_check_count (c : nat) (st : State) : State :=
  {| ops := ops st; console := console st; files := files st;
     spawned := spawned st; slept := slept st; inspections := inspections st;
     interrupted := interrupted st; check_count := Some c |}.

Definition nl : string := String (ascii_of_nat 10) EmptyString.

(** [print(x)] *)
Definition print (x : string) : M unit :=
  prim Print (fun _ _ st => (Ret tt, add_console (x +:+ nl) st)).

(** [with open(filename, 'a', encoding='utf-8') as f: f.write(text)].  The
    failure modelled is that of [open], which leaves no file behind; a write
    that fails once the file is open is not. *)
Definition append_file (filename text : string) : M unit :=
  prim FileAppend (fun n env st =>
    match env_fs env n with
    | Some msg => (Raise (OSError msg), st)
    | None => (Ret tt, add_file filename text st)
    end).

(** [datetime.now()] *)
Definition now : M datetime :=
  prim Clock (fun n env st => (Ret (env_now env n), st)).

(** [subprocess.run(cmd, capture_output=True, text=True, timeout=timeout)]:
    the child is started, then awaited. *)
Definition subprocess_run (cmd : list string) (timeout : Z) : M CompletedProcess :=
  let* child := prim Spawn (fun n _ st => (Ret n, add_spawned (cmd, timeout) st)) in
  prim Wait (fun _ env st =>
    match env_run env child with
    | Exits rc out err =>
        (Ret {| returncode := rc; proc_stdout := out; proc_stderr := err |}, st)
    | TimesOut msg => (Raise (TimeoutExpired msg), st)
    | Fails msg => (Raise (OSError msg), st)
    end).

(** [time.sleep] converts its argument to a signed 64-bit count of
    nanoseconds: [sleep_max] is the largest number of seconds that fits.
    Lengths up to [sleep_safe] (more than three years) are granted by every
    system; a longer one may be refused, depending on the platform and on
    the reading of its monotonic clock. *)
Definition sleep_max : Z := 9223372036.
Definition sleep_safe : Z := 100000000.

(** What [time.sleep(secs)] raises, if anything, before it sleeps;
    [refused] is the system's verdict on a long sleep. *)
Definition sleep_error (secs : Z) (refused : option string) : option exn :=
  if (secs <? - sleep_max) || (sleep_max <? secs)
  then Some (OverflowError "timestamp too large to convert to C _PyTime_t")
  else if secs <? 0
  then Some (ValueError "sleep length must be non-negative")
  else if sleep_safe <? secs then OSError <$> refused
  else None.

(** [time.sleep(secs)] *)
Definition sleep (secs : Z) : M unit :=
  prim Sleep (fun n env st =>
    match sleep_error secs (env_sleep env n) with
    | Some e => (Raise e, st)
    | None => (Ret tt, add_slept secs st)
    end).

(** [sys.exit(code)] *)
Definition sys_exit {A} (code : Z) : M A := raise (SystemExit code).

(** Reading main's local variable [check_count]. *)
Definition get_check_count : M nat :=
  fun _ st =>
    match check_count st with
    | Some c => (Ret c, st)
    | None =>
        (Raise (UnboundLocalError
           "cannot access local variable 'check_count' where it is not associated with a value"),
         st)
    end.

(** [check_count = 0] *)
Definition init_check_count : M unit :=
  prim Assign (fun _ _ st => (Ret tt, set_check_count 0 st)).

(** [check_count += 1] *)
Definition incr_check_count : M unit :=
  let* c := get_check_count in
  prim Assign (fun _ _ st => (Ret tt, set_check_count (S c) st)).

(** [int(s)], raising [ValueError] as Python does; no script displays the
    text of that exception. *)
Definition int_of (s : string) : M Z :=
  match Py.int s with
  | Some n => ret n
  | None => raise (ValueError ("invalid literal for int() with base 10: '" +:+ s +:+ "'"))
  end.

(** *** Time stamps *)

Definition zfill (width : nat) (n : nat) : string :=
  let s := Py.str (Z.of_nat n) in
  Py.repeat "0" (width - String.length s) +:+ s.

(** [strftime("%Y%m%d_%H%M%S")] *)
Definition strftime_compact (t : datetime) : string :=
  zfill 4 (year t) +:+ zfill 2 (month t) +:+ zfill 2 (day t) +:+ "_"
  +:+ zfill 2 (hour t) +:+ zfill 2 (minute t) +:+ zfill 2 (second t).

(** [strftime("%Y-%m-%d %H:%M:%S")] *)
Definition strftime_iso (t : datetime) : string :=
  zfill 4 (year t) +:+ "-" +:+ zfill 2 (month t) +:+ "-" +:+ zfill 2 (day t)
  +:+ " " +:+ zfill 2 (hour t) +:+ ":" +:+ zfill 2 (minute t) +:+ ":"
  +:+ zfill 2 (second t).

(** ** Functions shared by the scripts *)

(** The [bash -c] command line of [check_ssl_certificate]: the f-string
    interpolates [hostname] (twice) and [port] as they are. *)
Definition ssl_command (hostname : string) (port : Z) : string :=
  "echo | openssl s_client -connect " +:+ hostname +:+ ":" +:+ Py.str port
  +:+ " -servername " +:+ hostname +:+ " 2>/dev/null | "
  +:+ "openssl x509 -noout -subject -issuer -dates -ext subjectAltName".

Definition ssl_cmd (hostname : string) (port : Z) : list string :=
  ["bash"; "-c"; ssl_command hostname port].

(** [check_ssl_certificate(hostname, port)]; [inspections] counts the calls. *)
Definition check_ssl_certificate (hostname : string) (port : Z) : M string :=
  (fun _ st => (Ret tt, add_inspection st)) >>
  let cmd := ssl_cmd hostname port in
  try_except
    (let* result := subprocess_run cmd 30 in
     if returncode result =? 0
     then ret (Py.strip (proc_stdout result))
     else ret ("Error: " +:+ Py.strip (proc_stderr result)))
    [ (is_TimeoutExpired, fun _ => ret "Error: Command timed out");
      (is_Exception, fun e => ret ("Error: " +:+ exn_str e)) ].

(** [write_to_file(filename, content)] *)
Definition write_to_file (filename content : string) : M unit :=
  try_except
    (append_file filename (content +:+ nl))
    [ (is_Exception, fun e => print ("Error writing to file: " +:+ exn_str e)) ].

(** [parse_hostname_port(hostname_arg)] of
    [ssl_checker_with_server_and_website.py] *)
Definition parse_hostname_port (hostname_arg : string) : M (string * Z) :=
  if Py.contains ":" hostname_arg then
    match Py.rsplit1 ":" hostname_arg with
    | [hostname; port_str] =>
        try_except
          (let* port := int_of port_str in ret (hostname, port))
          [ (is_ValueError, fun _ =>
               print ("Error: Invalid port number '" +:+ port_str +:+ "'") >>
               sys_exit 1) ]
    | _ => raise (ValueError "not enough values to unpack (expected 2, got 1)")
    end
  else ret (hostname_arg, 443).

(** ** The polling loop

    The three logging scripts have the same loop and the same interrupt
    handler up to the wording of two messages; [check_label] is what
    follows "Checking SSL certificate" in the check header and [stop_label]
    what follows "SSL certificate monitoring" in the final message.
    [target] is the first argument passed to [check_ssl_certificate]. *)

Definition separator : string := Py.repeat "=" 80.

(** One pass through the body of [while True]. *)
Definition poll_once (check_label target : string) (port interval : Z)
    (log_filename : string) : M unit :=
  incr_check_count >>
  let* count := get_check_count in
  let* t := now in
  let timestamp := strftime_iso t in
  let check_header :=
    "[Check #" +:+ Py.str (Z.of_nat count) +:+ "] [" +:+ timestamp
    +:+ "] Checking SSL certificate" +:+ check_label +:+ "..." in
  print check_header >>
  write_to_file log_filename check_header >>
  let* result := check_ssl_certificate target port in
  print result >>
  write_to_file log_filename result >>
  let separator_line := Py.repeat "-" 80 in
  print separator_line >>
  write_to_file log_filename separator_line >>
  sleep interval.

(** The body of [except KeyboardInterrupt:]. *)
Definition on_interrupt (stop_label log_filename : string) : M unit :=
  let* t := now in
  let end_time := strftime_iso t in
  let* count := get_check_count in
  let final_msg :=
    nl +:+ "[" +:+ end_time +:+ "] SSL certificate monitoring" +:+ stop_label
    +:+ " stopped after " +:+ Py.str (Z.of_nat count) +:+ " checks." in
  let final_separator := Py.repeat "=" 80 in
  print final_msg >>
  print ("Results saved to: " +:+ log_filename) >>
  print final_separator >>
  write_to_file log_filename final_msg >>
  write_to_file log_filename ("Results saved to: " +:+ log_filename) >>
  write_to_file log_filename final_separator >>
  sys_exit 0.

(** [try: check_count = 0; while True: ... except KeyboardInterrupt: ...] *)
Definition monitor (fuel : nat) (check_label stop_label target : string)
    (port interval : Z) (log_filename : string) : M unit :=
  try_except
    (init_check_count >>
     while_true fuel (poll_once check_label target port interval log_filename))
    [ (is_KeyboardInterrupt, fun _ => on_interrupt stop_label log_filename) ].

(** The start-up banner, printed and logged, and the console-only hint. *)
Definition announce (header_details log_filename : string) : M unit :=
  let header := "SSL Certificate Monitoring Started" in
  let startup_msg :=
    separator +:+ nl +:+ header +:+ nl +:+ separator +:+ nl
    +:+ header_details +:+ nl +:+ separator in
  print startup_msg >>
  write_to_file log_filename startup_msg >>
  print ("Press Ctrl+C to stop" +:+ nl).

Definition hint_text : string := "Press Ctrl+C to stop" +:+ nl +:+ nl.

(** ** The command line of the [argparse] scripts

    What [parser.parse_args()] does with [sys.argv]: it returns the
    namespace of the options; or, for [-h], it prints the help text and
    exits with status 0; or, for a command line it rejects (an unknown or
    incomplete option, a missing required option, a value that [int]
    rejects), it writes a usage message to standard error and exits with
    status 2.  Which command line leads where is the business of [argparse]:
    a script's parser is taken as a function [parser] from the command line
    to these three outcomes. *)
Inductive parsed (A : Type) :=
  | Namespace (args : A)
  | Help (text : string)
  | Unparsable (message : string).
Arguments Namespace {A} args.
Arguments Help {A} text.
Arguments Unparsable {A} message.

(** [parser.parse_args()].  Standard error is not recorded. *)
Definition parse_args {A} (parser : list string -> parsed A)
    (argv : list string) : M A :=
  match parser argv with
  | Namespace args => ret args
  | Help text =>
      prim Print (fun _ _ st => (Ret tt, add_console text st)) >> sys_exit 0
  | Unparsable _ =>
      prim Print (fun _ _ st => (Ret tt, st)) >> sys_exit 2
  end.

(** ** [ssl_checkV2.py] *)
Module V2.

Definition usage : string := "Usage: python ssl_check.py [interval_seconds]".

(** [main()], with [sys.argv] as its argument. *)
Definition main (fuel : nat) (argv : list string) : M unit :=
  let hostname := "login.emory.edu" in
  let port := 443 in
  let interval := 60 in
  let* t0 := now in
  let start_time := strftime_compact t0 in
  let log_filename :=
    "script_output/ssl_check_" +:+ hostname +:+ "_" +:+ start_time +:+ ".log" in
  let* interval :=
    match argv with
    | _ :: arg1 :: _ =>
        try_except (int_of arg1)
          [ (is_ValueError, fun _ => print usage >> sys_exit 1) ]
    | _ => ret interval
    end in
  let* t1 := now in
  let header_details :=
    "Target: " +:+ hostname +:+ ":" +:+ Py.str port +:+ nl
    +:+ "Interval: " +:+ Py.str interval +:+ " seconds" +:+ nl
    +:+ "Log file: " +:+ log_filename +:+ nl
    +:+ "Started: " +:+ strftime_iso t1 in
  announce header_details log_filename >>
  monitor fuel "" "" hostname port interval log_filename.

End V2.

(** ** [ssl_checkV3.py] *)
Module V3.

(** The namespace returned by [parser.parse_args()]. *)
Record Args := { website : string; port : Z; interval : Z }.

Definition clean (website : string) : string :=
  Py.replace "." "_" (Py.replace "/" "_" (Py.replace ":" "_" website)).

(** [main()] from the point where the arguments have been parsed. *)
Definition main (fuel : nat) (args : Args) : M unit :=
  (if interval args <=? 0
   then print "Error: Interval must be a positive number" >> sys_exit 1
   else ret tt) >>
  (if (port args <=? 0) || (65535 <? port args)
   then print "Error: Port must be between 1 and 65535" >> sys_exit 1
   else ret tt) >>
  let website := website args in
  let port := port args in
  let interval := interval args in
  let* t0 := now in
  let start_time := strftime_compact t0 in
  let clean_website := clean website in
  let log_filename :=
    "ssl_check_" +:+ clean_website +:+ "_" +:+ Py.str port +:+ "_"
    +:+ start_time +:+ ".log" in
  let* t1 := now in
  let header_details :=
    "Website: " +:+ website +:+ nl
    +:+ "Port: " +:+ Py.str port +:+ nl
    +:+ "Interval: " +:+ Py.str interval +:+ " seconds" +:+ nl
    +:+ "Log file: " +:+ log_filename +:+ nl
    +:+ "Started: " +:+ strftime_iso t1 in
  announce header_details log_filename >>
  let label := " for " +:+ website +:+ ":" +:+ Py.str port in
  monitor fuel label label website port interval log_filename.

(** [main()] from its first line, with [sys.argv] as [argv]. *)
Definition script (fuel : nat) (parser : list string -> parsed Args)
    (argv : list string) : M unit :=
  let* args := parse_args parser argv in
  main fuel args.

End V3.

(** ** [ssl_checker_with_server_and_website.py] *)
Module ServerWebsite.

Record Args := { server : string; website : string; interval : Z }.

(** [main()] from the point where the arguments have been parsed. *)
Definition main (fuel : nat) (args : Args) : M unit :=
  (if interval args <=? 0
   then print "Error: Interval must be a positive number" >> sys_exit 1
   else ret tt) >>
  let* '(hostname, port) := parse_hostname_port (server args) in
  let website := website args in
  let interval := interval args in
  let* t0 := now in
  let start_time := strftime_compact t0 in
  let clean_website := V3.clean website in
  let log_filename :=
    "ssl_check_" +:+ clean_website +:+ "_" +:+ start_time +:+ ".log" in
  let* t1 := now in
  let header_details :=
    "Server: " +:+ hostname +:+ ":" +:+ Py.str port +:+ nl
    +:+ "Website: " +:+ website +:+ nl
    +:+ "Interval: " +:+ Py.str interval +:+ " seconds" +:+ nl
    +:+ "Log file: " +:+ log_filename +:+ nl
    +:+ "Started: " +:+ strftime_iso t1 in
  announce header_details log_filename >>
  monitor fuel
    (" for " +:+ website +:+ " (" +:+ hostname +:+ ":" +:+ Py.str port +:+ ")")
    (" for " +:+ website)
    hostname port interval log_filename.

(** [main()] from its first line, with [sys.argv] as [argv]. *)
Definition script (fuel : nat) (parser : list string -> parsed Args)
    (argv : list string) : M unit :=
  let* args := parse_args parser argv in
  main fuel args.

End ServerWebsite.

(** ** Running a script as a process *)

Inductive termination :=
  | Exited (code : Z)      (* [sys.exit(code)], or the end of the script *)
  | Uncaught (e : exn)     (* an exception reached the top level *)
  | StillRunning.

Definition run (m : M unit) (env : Env) : termination * State :=
  match m env initial with
  | (Ret _, st) => (Exited 0, st)
  | (Raise (SystemExit c), st) => (Exited c, st)
  | (Raise e, st) => (Uncaught e, st)
  | (Running, st) => (StillRunning, st)
  end.

(** How the process ends, as its parent sees it.  An exception that
    reaches the top level ends the interpreter with exit status 1, except
    [KeyboardInterrupt], for which the interpreter kills itself with
    SIGINT. *)
Inductive exit_status :=
  | ExitCode (code : Z)
  | KilledBySIGINT.

Definition status (t : termination) : option exit_status :=
  match t with
  | Exited c => Some (ExitCode c)
  | Uncaught KeyboardInterrupt => Some KilledBySIGINT
  | Uncaught (SystemExit c) => Some (ExitCode c)
  | Uncaught _ => Some (ExitCode 1)
  | StillRunning => None
  end.

Definition noon : datetime :=
  {| year := 2024; month := 5; day := 17; hour := 12; minute := 0; second := 9 |}.

(** ** Notions the properties are stated with *)

(** A string of decimal digits, and the number it denotes. *)
Fixpoint all_digits (s : string) : bool :=
  match s with
  | String c r => Py.isdigit c && all_digits r
  | EmptyString => true
  end.

Fixpoint decimal_value (s : string) : Z :=
  match s with
  | String c r =>
      Py.digit_value c * 10 ^ Z.of_nat (String.length r) + decimal_value r
  | EmptyString => 0
  end.

(** The string [check_ssl_certificate] returns when the child behaves as
    [b] and the call is not interrupted. *)
Definition check_result (b : proc_behaviour) : string :=
  match b with
  | Exits rc out err =>
      if rc =? 0 then Py.strip out else "Error: " +:+ Py.strip err
  | TimesOut _ => "Error: Command timed out"
  | Fails msg => "Error: " +:+ msg
  end.

(** An environment in which every child behaves as [b], every file append
    succeeds or fails as [fs] says, Ctrl+C arrives as [sigint] says, and no
    sleep is refused by the system. *)
Definition steady (sigint : option nat) (b : proc_behaviour)
    (fs : option string) : Env :=
  {| env_sigint := sigint; env_run := fun _ => b; env_fs := fun _ => fs;
     env_now := fun _ => noon; env_sleep := fun _ => None |}.

(** The failure kinds of the specification's [CheckOutcome]. *)
Inductive FailureKind := Timeout | ConnectionError | ProtocolError | ParseError.

(** Once Ctrl+C has been delivered it is not delivered again. *)
Definition sigint_past (env : Env) (st : State) : Prop :=
  match env_sigint env with
  | Some k => (k < ops st)%nat
  | None => True
  end.

(** The state of a script that is still polling after [fuel] passes. *)
Definition polled (fuel : nat) (target : string) (port interval : Z)
    (st : State) : Prop :=
  check_count st = Some fuel
  /\ inspections st = fuel
  /\ slept st = repeat interval fuel
  /\ spawned st = repeat (ssl_cmd target port, 30) fuel
  /\ interrupted st = None.

(** Ctrl+C has not been delivered yet. *)
Definition armed (env : Env) (st : State) : Prop :=
  match env_sigint env with
  | Some k => (ops st <= k)%nat
  | None => True
  end.

(** The operations that run between [check_count += 1] and the call of
    [check_ssl_certificate] are a clock reading, a print and a file append;
    the other kinds of operation do not occur there. *)
Definition outside_header (k : prim_kind) : bool :=
  match k with
  | Clock | Print | FileAppend => false
  | Assign | Spawn | Wait | Sleep => true
  end.

(** How [check_count] relates to the number of checks made. *)
Definition counts_agree (st : State) : Prop :=
  exists c,
    check_count st = Some c
    /\ (inspections st <= c <= S (inspections st))%nat
    /\ (forall k, interrupted st = Some k -> outside_header k = true ->
        c = inspections st).

(** The operations of one pass of the loop when every write to the log
    succeeds: [check_count += 1], the clock reading, the print and the log
    write of the check header, the start of the child and the wait for it,
    the print and the log write of the result and of the separator line, and
    the sleep. *)
Definition pass_ops : list prim_kind :=
  [Assign; Clock; Print; FileAppend; Spawn; Wait;
   Print; FileAppend; Print; FileAppend; Sleep].

(** The run [r] ends through the interrupt handler after Ctrl+C pre-empted
    operation [i] of pass [j] of the loop (both counted from 0): [j] passes
    are complete, [check_count] is ahead by the increment of the current
    pass unless that was the operation pre-empted, and the current pass has
    made its check if its first four operations are done. *)
Definition cancelled_in_pass (j i : nat) (r : termination * State) : Prop :=
  fst r = Exited 0
  /\ check_count (snd r) = Some (if (i =? 0)%nat then j else S j)
  /\ inspections (snd r) = (if (i <=? 3)%nat then j else S j)
  /\ interrupted (snd r) = pass_ops !! i.

(** The exceptions [time.sleep(secs)] can raise. *)
Definition sleep_raises (secs : Z) (e : exn) : Prop :=
  match e with
  | ValueError _ => - sleep_max <= secs < 0
  | OverflowError _ => secs < - sleep_max \/ sleep_max < secs
  | OSError _ => sleep_safe < secs <= sleep_max
  | _ => False
  end.

(** The ways a run of a script can end, or not: [rejected] says that the
    configuration is invalid, [interval] is the sleep between two checks. *)
Definition main_post (env : Env) (rejected : Prop) (interval : Z) (fuel : nat)
    (r : outcome unit * State) : Prop :=
  match r with
  | (Raise (SystemExit code), st) =>
      (code = 0 /\ ~ rejected /\ counts_agree st /\ interrupted st <> None)
      \/ (code = 1 /\ rejected /\ inspections st = 0%nat /\ spawned st = []
          /\ check_count st = None)
  | (Raise KeyboardInterrupt, st) =>
      inspections st = 0%nat /\ check_count st = None
      /\ exists k, env_sigint env = Some k /\ (k < 6)%nat
  | (Raise (UnboundLocalError _), st) =>
      ~ rejected /\ inspections st = 0%nat
      /\ exists k, env_sigint env = Some k /\ (5 <= k < 7)%nat
  | (Raise e, st) =>
      ~ rejected /\ sleep_raises interval e /\ interrupted st = None
      /\ (1 <= inspections st)%nat
  | (Running, st) =>
      ~ rejected /\ interrupted st = None /\ check_count st = Some fuel
      /\ inspections st = fuel
      /\ forall k, env_sigint env = Some k -> (fuel < k)%nat
  | (Ret _, _) => False
  end.

(** What a run [r] of a script can be, in terms of its exit status:
    [rejected] says that the configuration is invalid, [interval] is the
    sleep between two checks.  Status 0 comes from the interrupt handler
    only.  Status 1 comes from [sys.exit(1)] for a rejected configuration,
    before any check, and from an exception that nothing catches: the
    [UnboundLocalError] of the handler when Ctrl+C arrives just before
    [check_count] is bound, and what [time.sleep] raises for an interval it
    does not accept, after a check has been made.  A rejected configuration
    leads nowhere else, unless Ctrl+C arrives first.  There is no other exit
    code; the process is killed by SIGINT when Ctrl+C arrives during the
    start-up.  And Ctrl+C leads to status 0 whenever it arrives once the loop
    has started and [time.sleep] grants the interval. *)
Definition exit_status_of (env : Env) (rejected : Prop) (interval : Z)
    (fuel : nat) (r : termination * State) : Prop :=
  (status (fst r) = Some (ExitCode 0) ->
   fst r = Exited 0 /\ ~ rejected /\ interrupted (snd r) <> None)
  /\ (status (fst r) = Some (ExitCode 1) ->
      (rejected /\ fst r = Exited 1 /\ spawned (snd r) = []
       /\ inspections (snd r) = 0%nat)
      \/ (~ rejected /\ inspections (snd r) = 0%nat
          /\ (exists m, fst r = Uncaught (UnboundLocalError m))
          /\ exists k, env_sigint env = Some k /\ (5 <= k < 7)%nat)
      \/ (~ rejected /\ interrupted (snd r) = None
          /\ (1 <= inspections (snd r))%nat
          /\ exists e, fst r = Uncaught e /\ sleep_raises interval e))
  /\ (rejected -> fst r = Exited 1 \/ fst r = Uncaught KeyboardInterrupt)
  /\ (forall c, status (fst r) = Some (ExitCode c) -> c = 0 \/ c = 1)
  /\ (status (fst r) = Some KilledBySIGINT ->
      inspections (snd r) = 0%nat
      /\ exists k, env_sigint env = Some k /\ (k < 6)%nat)
  /\ (forall k, env_sigint env = Some k -> (7 <= k < fuel)%nat ->
      ~ rejected -> 0 <= interval <= sleep_safe -> fst r = Exited 0).

(** What a run [r] of an [argparse] script can be when [parse_args] does
    not return: the status is [code], unless Ctrl+C arrives first; nothing
    but [text] is printed, no child is started and no file is written. *)
Definition leaves_at_once (env : Env) (code : Z) (text : list string)
    (r : termination * State) : Prop :=
  (sigint_at env 0 = false -> fst r = Exited code /\ console (snd r) = text)
  /\ (sigint_at env 0 = true ->
      fst r = Uncaught KeyboardInterrupt /\ console (snd r) = [])
  /\ spawned (snd r) = [] /\ files (snd r) = ∅
  /\ inspections (snd r) = 0%nat.

(** The configurations the scripts reject, and the interval
    [ssl_checkV2.py] ends up with: [sys.argv[1]] when there is one and it
    reads as an integer, 60 otherwise. *)
Definition V3_rejected (args : V3.Args) : Prop :=
  V3.interval args <= 0 \/ V3.port args <= 0 \/ 65535 < V3.port args.

Definition V2_rejected (argv : list string) : Prop :=
  exists prog arg rest, argv = prog :: arg :: rest /\ Py.int arg = None.

Definition V2_interval (argv : list string) : Z :=
  match argv with
  | _ :: arg :: _ => default 60 (Py.int arg)
  | _ => 60
  end.

(** The log file [log] holds what was written to the console, in the same
    order, except for the hint that follows the banner. *)
Definition synced (log : string) (st : State) : Prop :=
  exists banner rest,
    console st = banner :: hint_text :: rest
    /\ files st = {[ log := banner :: rest ]}.

(** How bash divides a command line that has no quoting, escapes or
    compound commands: [;] separates the commands of a list, and [|] the
    stages of each pipeline. *)
Module Sh.

Fixpoint split (c : ascii) (s : string) : list string :=
  match s with
  | EmptyString => [EmptyString]
  | String d r =>
      match split c r with
      | piece :: pieces =>
          if Ascii.eqb d c then EmptyString :: piece :: pieces
          else String d piece :: pieces
      | [] => [String d EmptyString]
      end
  end.

Definition structure (s : string) : list (list string) :=
  map (split "|") (split ";" s).

(** The number of pipeline stages of each command of the list. *)
Definition shape (s : string) : list nat := map length (structure s).

Definition metachar (c : ascii) : bool :=
  existsb (Ascii.eqb c) [";"; "|"; "&"; "$"; "("; ")"; "<"; ">"; "`"]%char.

(** [s] without its shell metacharacters. *)
Fixpoint plain (s : string) : string :=
  match s with
  | EmptyString => EmptyString
  | String c r => if metachar c then plain r else String c (plain r)
  end.

(** [s] holds no shell metacharacter. *)
Fixpoint no_metachar (s : string) : bool :=
  match s with
  | EmptyString => true
  | String c r => negb (metachar c) && no_metachar r
  end.

End Sh.

(** The log file names the scripts compute from their configuration and
    the time [t] of start. *)
Definition V2_log_name (t : datetime) : string :=
  "script_output/ssl_check_" +:+ "login.emory.edu" +:+ "_"
  +:+ strftime_compact t +:+ ".log".

Definition V3_log_name (args : V3.Args) (t : datetime) : string :=
  "ssl_check_" +:+ V3.clean (V3.website args) +:+ "_"
  +:+ Py.str (V3.port args) +:+ "_" +:+ strftime_compact t +:+ ".log".

Definition ServerWebsite_log_name (args : ServerWebsite.Args) (t : datetime)
    : string :=
  "ssl_check_" +:+ V3.clean (ServerWebsite.website args) +:+ "_"
  +:+ strftime_compact t +:+ ".log".

(** From [st] to [st'] no file other than [log] is written to, and [log]
    is only appended to. *)
Definition appends_only (log : string) (st st' : State) : Prop :=
  files st' = files st
  \/ exists more,
       files st'
       = <[log := default [] (files st !! log) ++ more]> (files st).

(** ** [ssl_check.py] *)
Module V1.

Definition usage : string := "Usage: python ssl_check.py [interval_seconds]".

(** One pass through the body of [while True]. *)
Definition poll_once (hostname : string) (port interval : Z) : M unit :=
  let* t := now in
  let timestamp := strftime_iso t in
  print ("[" +:+ timestamp +:+ "] Checking SSL certificate...") >>
  let* result := check_ssl_certificate hostname port in
  print result >>
  print (Py.repeat "-" 80) >>
  sleep interval.

(** [try: while True: ... except KeyboardInterrupt: ...] *)
Definition monitor (fuel : nat) (hostname : string) (port interval : Z)
    : M unit :=
  try_except
    (while_true fuel (poll_once hostname port interval))
    [ (is_KeyboardInterrupt, fun _ =>
         print (nl +:+ "Stopping SSL certificate monitoring...") >>
         sys_exit 0) ].

(** [main()], with [sys.argv] as its argument. *)
Definition main (fuel : nat) (argv : list string) : M unit :=
  let hostname := "login.emory.edu" in
  let port := 443 in
  let interval := 60 in
  let* interval :=
    match argv with
    | _ :: arg1 :: _ =>
        try_except (int_of arg1)
          [ (is_ValueError, fun _ => print usage >> sys_exit 1) ]
    | _ => ret interval
    end in
  print ("Starting SSL certificate monitoring for " +:+ hostname +:+ ":"
         +:+ Py.str port) >>
  print ("Check interval: " +:+ Py.str interval +:+ " seconds") >>
  print ("Press Ctrl+C to stop" +:+ nl) >>
  monitor fuel hostname port interval.

End V1.

(** The ways a run of [ssl_check.py] can end, or not; [rejected] and
    [interval] are as for [main_post]. *)
Definition V1_post (env : Env) (rejected : Prop) (interval : Z) (fuel : nat)
    (r : outcome unit * State) : Prop :=
  files (snd r) = ∅ /\ check_count (snd r) = None
  /\ match r with
     | (Raise (SystemExit code), st) =>
         (code = 0 /\ ~ rejected /\ interrupted st <> None)
         \/ (code = 1 /\ rejected /\ spawned st = [])
     | (Raise KeyboardInterrupt, st) =>
         spawned st = [] /\ exists k, env_sigint env = Some k /\ (k < 3)%nat
     | (Raise e, st) =>
         ~ rejected /\ sleep_raises interval e /\ interrupted st = None
         /\ (1 <= inspections st)%nat
     | (Running, st) =>
         ~ rejected /\ forall k, env_sigint env = Some k -> (fuel < k)%nat
     | (Ret _, _) => False
     end.

(** Every child started so far ran [cmd], every completed sleep lasted
    [interval] seconds, and checks and sleeps alternate, a check first.
    [paced_even] holds between two passes of the loop. *)
Definition paced (cmd : list string * Z) (interval : Z) (st : State) : Prop :=
  exists m n,
    spawned st = repeat cmd m /\ slept st = repeat interval n
    /\ (n <= m <= S n)%nat.

Definition paced_even (cmd : list string * Z) (interval : Z) (st : State)
    : Prop :=
  exists n, spawned st = repeat cmd n /\ slept st = repeat interval n.

(** The configurations [ssl_checker_with_server_and_website.py] rejects. *)
Definition ServerWebsite_rejected (args : ServerWebsite.Args) : Prop :=
  ServerWebsite.interval args <= 0
  \/ exists h p,
       Py.rsplit_last ":" (ServerWebsite.server args) = Some (h, p)
       /\ Py.int p = None.

(** * Properties *)

(** ** Strings *)

Example strip_ex :
  Py.strip (" subject=CN = a " +:+ nl) = "subject=CN = a".
Proof. reflexivity. Qed.

Example int_examples :
  Py.int "8443" = Some 8443 /\ Py.int " -5 " = Some (-5)
  /\ Py.int "1_000" = Some 1000 /\ Py.int "1__0" = None
  /\ Py.int "" = None /\ Py.int "12a" = None /\ Py.int "+7" = Some 7
  /\ Py.int ("5" +:+ nl) = Some 5 /\ Py.int "- 5" = None.
Proof. repeat split; reflexivity. Qed.

(** [str.strip] drops the separator 31, [int] does not accept it; and [int]
    reads 4300 digits, not 4301. *)
Example int_limits :
  Py.strip (String (ascii_of_nat 31) "5") = "5"
  /\ Py.int (String (ascii_of_nat 31) "5") = None
  /\ Py.int (Py.repeat "9" 4300) = Some (10 ^ 4300 - 1)
  /\ Py.int (Py.repeat "9" 4301) = None
  /\ Py.int ("-" +:+ Py.repeat "0" 4301) = None.
Proof. vm_compute. repeat split. Qed.

Example str_ex : Py.str (-443) = "-443" /\ Py.str 0 = "0".
Proof. split; reflexivity. Qed.

Example rsplit_ex : Py.rsplit1 ":" "a:b:8443" = ["a:b"; "8443"].
Proof. reflexivity. Qed.

Lemma isdigit_not_space c : Py.isdigit c = true -> Py.int_space c = false.
Proof.
  unfold Py.isdigit, Py.int_space. intros H.
  apply andb_true_iff in H as [H1 H2].
  apply Nat.leb_le in H1. apply Nat.leb_le in H2.
  repeat match goal with
  | |- context [(?a <=? ?b)%nat] => destruct (Nat.leb_spec a b)
  | |- context [(?a =? ?b)%nat] => destruct (Nat.eqb_spec a b)
  end; simpl; try reflexivity; lia.
Qed.

Lemma isdigit_not_colon c : Py.isdigit c = true -> Ascii.eqb c ":" = false.
Proof.
  intros H. destruct (Ascii.eqb_spec c ":") as [->|]; [discriminate H | reflexivity].
Qed.

Lemma lstrip_digits s : all_digits s = true -> Py.int_lstrip s = s.
Proof.
  destruct s as [|c r]; simpl; [reflexivity|].
  intros H. apply andb_true_iff in H as [H _].
  now rewrite (isdigit_not_space _ H).
Qed.

Lemma rstrip_digits s : all_digits s = true -> Py.int_rstrip s = s.
Proof.
  induction s as [|c r IH]; simpl; [reflexivity|].
  intros H. apply andb_true_iff in H as [Hc Hr].
  rewrite (IH Hr). destruct r; [|reflexivity].
  now rewrite (isdigit_not_space _ Hc).
Qed.

Lemma strip_digits s :
  all_digits s = true -> Py.int_rstrip (Py.int_lstrip s) = s.
Proof.
  intros H. rewrite (lstrip_digits _ H). now apply rstrip_digits.
Qed.

Lemma count_digits_all s :
  all_digits s = true -> Py.count_digits s = String.length s.
Proof.
  induction s as [|c r IH]; simpl; [reflexivity|].
  intros H. apply andb_true_iff in H as [Hc Hr]. now rewrite Hc, IH.
Qed.

Lemma int_literal_short t :
  (Py.count_digits t <= Py.max_str_digits)%nat ->
  Py.int_literal t = Py.int_digits 0 false t.
Proof.
  intros H. unfold Py.int_literal.
  now destruct (Nat.leb_spec (Py.count_digits t) Py.max_str_digits); [|lia].
Qed.

Lemma int_literal_long t :
  (Py.max_str_digits < Py.count_digits t)%nat -> Py.int_literal t = None.
Proof.
  intros H. unfold Py.int_literal.
  now destruct (Nat.leb_spec (Py.count_digits t) Py.max_str_digits); [lia|].
Qed.

Lemma int_digits_value s : forall acc seen,
  all_digits s = true -> (seen = true \/ s <> EmptyString) ->
  Py.int_digits acc seen s
  = Some (acc * 10 ^ Z.of_nat (String.length s) + decimal_value s).
Proof.
  induction s as [|c r IH]; intros acc seen Hd Hne.
  - destruct Hne as [-> | Hne]; [|congruence]. simpl. f_equal. lia.
  - simpl in Hd. apply andb_true_iff in Hd as [Hc Hr].
    cbn [Py.int_digits]. rewrite Hc. rewrite IH by auto.
    f_equal. cbn [String.length decimal_value].
    rewrite Nat2Z.inj_succ, Z.pow_succ_r by lia. ring.
Qed.

Lemma int_unsigned c r :
  Py.isdigit c = true ->
  Py.int_rstrip (Py.int_lstrip (String c r)) = String c r ->
  Py.int (String c r) = Py.int_literal (String c r).
Proof.
  intros Hc E. unfold Py.int. rewrite E.
  destruct (Ascii.eqb_spec c "+") as [->|]; [discriminate Hc|].
  destruct (Ascii.eqb_spec c "-") as [->|]; [discriminate Hc|].
  destruct c as [[] [] [] [] [] [] [] []]; try reflexivity; congruence.
Qed.

Lemma int_of_digits s :
  all_digits s = true -> s <> EmptyString ->
  (String.length s <= Py.max_str_digits)%nat ->
  Py.int s = Some (decimal_value s).
Proof.
  intros Hd Hne Hlen. destruct s as [|c r]; [congruence|].
  assert (Hc : Py.isdigit c = true) by (simpl in Hd; now apply andb_true_iff in Hd).
  rewrite (int_unsigned _ _ Hc (strip_digits _ Hd)).
  rewrite int_literal_short by (now rewrite count_digits_all).
  rewrite int_digits_value by auto. f_equal; lia.
Qed.

Lemma int_of_long_digits s :
  all_digits s = true -> (Py.max_str_digits < String.length s)%nat ->
  Py.int s = None.
Proof.
  intros Hd Hlen. destruct s as [|c r]; [cbn in Hlen; lia|].
  assert (Hc : Py.isdigit c = true) by (simpl in Hd; now apply andb_true_iff in Hd).
  rewrite (int_unsigned _ _ Hc (strip_digits _ Hd)).
  apply int_literal_long. now rewrite count_digits_all.
Qed.

Lemma contains_digits s : all_digits s = true -> Py.contains ":" s = false.
Proof.
  induction s as [|c r IH]; simpl; [reflexivity|].
  intros H. apply andb_true_iff in H as [Hc Hr].
  now rewrite (isdigit_not_colon _ Hc), IH.
Qed.

Lemma rsplit_last_None s : Py.contains ":" s = false -> Py.rsplit_last ":" s = None.
Proof.
  induction s as [|c r IH]; simpl; [reflexivity|].
  destruct (Ascii.eqb c ":"); [discriminate|]. intros H. now rewrite IH.
Qed.

Lemma rsplit_last_app host s :
  Py.contains ":" s = false ->
  Py.rsplit_last ":" (host +:+ ":" +:+ s) = Some (host, s).
Proof.
  intros H. induction host as [|c h IH].
  - change ("" +:+ ":" +:+ s) with (String ":" s).
    cbn [Py.rsplit_last]. now rewrite (rsplit_last_None _ H).
  - change (String c h +:+ ":" +:+ s) with (String c (h +:+ ":" +:+ s)).
    cbn [Py.rsplit_last]. now rewrite IH.
Qed.

Lemma contains_app host s : Py.contains ":" (host +:+ ":" +:+ s) = true.
Proof.
  induction host as [|c h IH]; [reflexivity|].
  change (String c h +:+ ":" +:+ s) with (String c (h +:+ ":" +:+ s)).
  cbn [Py.contains]. rewrite IH. now destruct (Ascii.eqb c ":").
Qed.

Lemma append_assoc (a b c : string) : (a +:+ b) +:+ c = a +:+ b +:+ c.
Proof.
  induction a as [|x a IH]; [reflexivity|].
  change (String x ((a +:+ b) +:+ c) = String x (a +:+ b +:+ c)).
  now rewrite IH.
Qed.

(** ** [parse_hostname_port] *)

(** C6, as stated, fails for a port text of more than 4300 digits: [int]
    refuses it with [ValueError], so [parse_hostname_port] prints its
    complaint and exits with code 1 instead of returning the host and the
    integer. *)
Lemma long_port_text_is_rejected :
  let digits := Py.repeat "9" 4301 in
  let r := parse_hostname_port ("example.com:" +:+ digits)
             (steady None (Fails "") None) initial in
  all_digits digits = true
  /\ fst r = Raise (SystemExit 1)
  /\ console (snd r)
     = ["Error: Invalid port number '" +:+ digits +:+ "'" +:+ nl].
Proof. vm_compute. repeat split. Qed.

(** C6, amended: [parse_hostname_port "example.com:8443"] returns
    [("example.com", 8443)]; for every argument [host:digits] with at most
    4300 digits it returns [host] and the number the digits denote, and no
    operation is performed; with more than 4300 digits it prints its
    complaint and exits with code 1 (unless Ctrl+C arrives first); for an
    argument without a colon it returns the argument and port 443. *)
Theorem parse_hostname_port_spec :
  (forall env st,
     parse_hostname_port "example.com:8443" env st
     = (Ret ("example.com", 8443), st))
  /\ (forall env st host digits,
        all_digits digits = true -> digits <> EmptyString ->
        (String.length digits <= 4300)%nat ->
        parse_hostname_port (host +:+ ":" +:+ digits) env st
        = (Ret (host, decimal_value digits), st))
  /\ (forall env st host digits,
        all_digits digits = true -> (4300 < String.length digits)%nat ->
        sigint_at env (ops st) = false ->
        exists st',
          parse_hostname_port (host +:+ ":" +:+ digits) env st
          = (Raise (SystemExit 1), st')
          /\ console st'
             = console st
               ++ ["Error: Invalid port number '" +:+ digits +:+ "'" +:+ nl])
  /\ (forall env st arg,
        Py.contains ":" arg = false ->
        parse_hostname_port arg env st = (Ret (arg, 443), st)).
Proof.
  split; [reflexivity | split; [|split]].
  - intros env st host digits Hd Hne Hlen. unfold parse_hostname_port.
    rewrite contains_app. unfold Py.rsplit1.
    rewrite (rsplit_last_app _ _ (contains_digits _ Hd)).
    unfold try_except, bind, int_of. now rewrite (int_of_digits _ Hd Hne Hlen).
  - intros env st host digits Hd Hlen H0. unfold parse_hostname_port.
    rewrite contains_app. unfold Py.rsplit1.
    rewrite (rsplit_last_app _ _ (contains_digits _ Hd)).
    unfold try_except, bind, int_of, print, prim, sys_exit, raise.
    rewrite (int_of_long_digits _ Hd Hlen). cbn. rewrite H0.
    eexists. split; [reflexivity|]. cbn. now rewrite !append_assoc.
  - intros env st arg H. unfold parse_hostname_port. now rewrite H.
Qed.

Lemma parse_hostname_port_spec_witness :
  parse_hostname_port ("login.emory.edu" +:+ ":" +:+ "0443")
    (steady None (Fails "") None) initial
  = (Ret ("login.emory.edu", 443), initial)
  /\ parse_hostname_port "github.com" (steady None (Fails "") None) initial
     = (Ret ("github.com", 443), initial).
Proof.
  destruct parse_hostname_port_spec as (_ & Hdigits & _ & Hplain). split.
  - apply (Hdigits _ _ "login.emory.edu" "0443");
      [reflexivity | discriminate | cbn; lia].
  - apply Hplain. reflexivity.
Defined.

(** ** Symbolic execution *)

Global Arguments Py.str : simpl never.
Global Arguments Py.repeat : simpl never.
Global Arguments Py.strip : simpl never.
Global Arguments strftime_iso : simpl never.
Global Arguments strftime_compact : simpl never.
Global Arguments ssl_cmd : simpl never.
Global Arguments monitor : simpl never.
Global Arguments sleep_error : simpl never.

Lemma sigint_at_None env n : env_sigint env = None -> sigint_at env n = false.
Proof. unfold sigint_at. now intros ->. Qed.

Lemma sigint_past_at env st n :
  sigint_past env st -> (ops st <= n)%nat -> sigint_at env n = false.
Proof.
  unfold sigint_past, sigint_at. destruct (env_sigint env) as [k|]; [|reflexivity].
  intros. apply Nat.eqb_neq. lia.
Qed.

(** Unfolds the computations of the goal down to the tests on the
    environment, and decides those tests from the hypotheses or by cases. *)
Ltac unfold_ops :=
  unfold write_to_file, check_ssl_certificate, subprocess_run, print,
    append_file, now, sleep, init_check_count, incr_check_count,
    get_check_count, sys_exit, raise, try_except, bind, ret, prim in *.

Ltac sleep_tests :=
  unfold sleep_error;
  repeat match goal with
  | |- context [?a <? ?b] => destruct (Z.ltb_spec a b)
  end;
  cbn [orb]; unfold sleep_raises, sleep_safe, sleep_max in *.

Lemma sleep_error_granted secs refused :
  0 <= secs <= sleep_safe -> sleep_error secs refused = None.
Proof. intros H. sleep_tests; (reflexivity || lia). Qed.

Lemma sleep_error_negative secs refused :
  - sleep_max <= secs < 0 ->
  sleep_error secs refused
  = Some (ValueError "sleep length must be non-negative").
Proof. intros H. sleep_tests; (reflexivity || lia). Qed.

Lemma sleep_error_cases secs refused :
  match sleep_error secs refused with
  | Some e =>
      sleep_raises secs e
      /\ ((exists m, e = ValueError m) \/ (exists m, e = OverflowError m)
          \/ (exists m, e = OSError m))
  | None => 0 <= secs <= sleep_max
  end.
Proof.
  sleep_tests; try destruct refused as [m|]; cbn;
    try (split; [lia | eauto]); lia.
Qed.

Ltac exec_one :=
  match goal with
  | H : forall r, sleep_error ?s r = _ |- context [sleep_error ?s ?r] =>
      rewrite (H r)
  | |- context [sleep_error ?s ?r] =>
      let H := fresh "Hsleep" in
      pose proof (sleep_error_cases s r) as H;
      destruct (sleep_error s r) as [?e|];
      [ destruct H as [H [[?m ->] | [[?m ->] | [?m ->]]]] | ]
  | H : sigint_at ?env ?n = _ |- context [sigint_at ?env ?n] => rewrite H
  | H : env_sigint ?env = None |- context [sigint_at ?env ?n] =>
      rewrite (sigint_at_None env n H)
  | H : sigint_past ?env ?st |- context [sigint_at ?env ?n] =>
      rewrite (sigint_past_at env st n H) by (cbn; lia)
  | H : env_fs ?env ?n = _ |- context [env_fs ?env ?n] => rewrite H
  | H : forall n, env_fs ?env n = None |- context [env_fs ?env ?n] =>
      rewrite (H n)
  | H : env_run ?env ?n = _ |- context [env_run ?env ?n] => rewrite H
  | H : ?b = _ |- context [if ?b then _ else _] => rewrite H
  | |- context [sigint_at ?env ?n] => destruct (sigint_at env n) eqn:?
  | |- context [env_fs ?env ?n] => destruct (env_fs env n) eqn:?
  | |- context [env_run ?env ?n] => destruct (env_run env n) eqn:?
  | |- context [if ?b then _ else _] => destruct b eqn:?
  end; cbn.

Ltac exec := unfold_ops; cbn; repeat exec_one.

(** ** [check_ssl_certificate] *)

Lemma check_ssl_certificate_run env st hostname port :
  sigint_at env (ops st) = false -> sigint_at env (S (ops st)) = false ->
  check_ssl_certificate hostname port env st
  = (Ret (check_result (env_run env (ops st))),
     begin_op (add_spawned (ssl_cmd hostname port, 30)
                 (begin_op (add_inspection st)))).
Proof.
  intros H0 H1. unfold_ops. cbn. rewrite H0. cbn. rewrite H1.
  destruct (env_run env (ops st)) as [rc out err | m | m]; cbn;
    [destruct (rc =? 0)|..]; reflexivity.
Qed.

(** C10, as stated, fails: [check_ssl_certificate] can raise.  Its
    handlers catch [Exception], which [KeyboardInterrupt] is not: when the
    operator's Ctrl+C arrives while the child runs, the call is left by
    [KeyboardInterrupt] and returns no string, although the child itself
    ends well. *)
Lemma ctrl_c_escapes_check_ssl_certificate :
  let r := check_ssl_certificate "login.emory.edu" 443
             (steady (Some 1%nat) (Exits 0 "subject=CN = login.emory.edu" "") None)
             initial in
  fst r = Raise KeyboardInterrupt
  /\ interrupted (snd r) = Some Wait
  /\ length (spawned (snd r)) = 1%nat.
Proof. vm_compute. repeat split. Qed.

(** C10, amended: whatever the child does (success, non-zero exit, timeout
    or an exception raised by [subprocess.run]), a call of
    [check_ssl_certificate] during which Ctrl+C does not arrive returns a
    string: the stripped standard output when the child exits with status 0,
    and a string that begins with "Error:" otherwise. *)
Theorem check_ssl_certificate_total env st hostname port :
  sigint_at env (ops st) = false -> sigint_at env (S (ops st)) = false ->
  exists s st',
    check_ssl_certificate hostname port env st = (Ret s, st')
    /\ match env_run env (ops st) with
       | Exits 0 out _ => s = Py.strip out
       | _ => String.prefix "Error:" s = true
       end.
Proof.
  intros H0 H1. rewrite (check_ssl_certificate_run _ _ _ _ H0 H1).
  eexists _, _. split; [reflexivity|].
  destruct (env_run env (ops st)) as [[|rc|rc] out err | m | m]; reflexivity.
Qed.

Lemma check_ssl_certificate_total_witness :
  exists s st',
    check_ssl_certificate "login.emory.edu" 443
      (steady None (Exits 0 ("subject=CN = login.emory.edu" +:+ nl) "") None)
      initial = (Ret s, st')
    /\ s = "subject=CN = login.emory.edu".
Proof.
  destruct (check_ssl_certificate_total
              (steady None (Exits 0 ("subject=CN = login.emory.edu" +:+ nl) "") None)
              initial "login.emory.edu" 443)
    as (s & st' & E & Hs); [reflexivity | reflexivity |].
  exists s, st'. split; [exact E|]. simpl in Hs. rewrite Hs. reflexivity.
Defined.

(** C1, as stated, fails: the returned value carries no failure kind.  A
    timeout and a child that exits with status 1 after writing
    "Command timed out" to its standard error give the same string, so no
    reading of the result is [Timeout] exactly on timeouts. *)
Lemma timeout_not_recognisable :
  ~ exists kind_of : outcome string -> option FailureKind,
      forall b,
        kind_of (fst (check_ssl_certificate "login.emory.edu" 443
                        (steady None b None) initial)) = Some Timeout
        <-> exists msg, b = TimesOut msg.
Proof.
  intros [kind_of H].
  destruct (H (TimesOut "")) as [_ Ht].
  destruct (H (Exits 1 "" "Command timed out")) as [He _].
  destruct He as [msg Hm]; [|discriminate Hm].
  rewrite <- Ht by (now exists ""). reflexivity.
Qed.

(** C1, amended: a failed check that Ctrl+C does not interrupt returns the
    string "Error: " followed by a message: "Command timed out" after a
    timeout, the stripped standard error after a non-zero exit, the
    exception's text otherwise.  The call starts exactly one child, with
    timeout 30: nothing is retried. *)
Theorem failed_check_returns_error_text env st hostname port :
  sigint_at env (ops st) = false -> sigint_at env (S (ops st)) = false ->
  (forall out err, env_run env (ops st) <> Exits 0 out err) ->
  exists msg st',
    check_ssl_certificate hostname port env st = (Ret ("Error: " +:+ msg), st')
    /\ msg = match env_run env (ops st) with
             | Exits _ _ err => Py.strip err
             | TimesOut _ => "Command timed out"
             | Fails m => m
             end
    /\ spawned st' = spawned st ++ [(ssl_cmd hostname port, 30)]
    /\ inspections st' = S (inspections st).
Proof.
  intros H0 H1 Hfail. rewrite (check_ssl_certificate_run _ _ _ _ H0 H1).
  destruct (env_run env (ops st)) as [rc out err | m | m] eqn:E; cbn.
  - destruct (Z.eqb_spec rc 0) as [->|]; [now destruct (Hfail out err)|].
    eexists _, _. repeat split.
  - eexists _, _. repeat split.
  - eexists _, _. repeat split.
Qed.

Lemma failed_check_returns_error_text_witness :
  exists st',
    check_ssl_certificate "login.emory.edu" 443
      (steady None (TimesOut "") None) initial
    = (Ret "Error: Command timed out", st')
    /\ length (spawned st') = 1%nat.
Proof.
  destruct (failed_check_returns_error_text (steady None (TimesOut "") None)
              initial "login.emory.edu" 443)
    as (msg & st' & E & Hm & Hs & _);
    [reflexivity | reflexivity | discriminate |].
  exists st'. simpl in Hm. subst msg. split; [exact E|].
  rewrite Hs. reflexivity.
Defined.

(** ** [write_to_file] *)

Lemma write_to_file_ok env st filename content :
  sigint_at env (ops st) = false -> env_fs env (ops st) = None ->
  write_to_file filename content env st
  = (Ret tt, add_file filename (content +:+ nl) (begin_op st)).
Proof. intros H0 H1. unfold_ops. now rewrite H0, H1. Qed.

Lemma write_to_file_failed env st filename content msg :
  sigint_at env (ops st) = false -> sigint_at env (S (ops st)) = false ->
  env_fs env (ops st) = Some msg ->
  write_to_file filename content env st
  = (Ret tt,
     add_console (("Error writing to file: " +:+ msg) +:+ nl)
       (begin_op (begin_op st))).
Proof. intros H0 H1 H2. unfold_ops. rewrite H0, H2. cbn. now rewrite H1. Qed.

(** ** The loop when Ctrl+C never arrives *)

Section Quiet.

Variable env : Env.
Hypothesis never : env_sigint env = None.

Variables (check_label stop_label target log_filename : string).
Variables (port interval : Z).
Hypothesis interval_ok : 0 <= interval <= sleep_safe.

Local Abbreviation body :=
  (poll_once check_label target port interval log_filename).

(** One pass completes, whatever the child and the log file do. *)
Lemma poll_once_quiet st c :
  check_count st = Some c ->
  exists st',
    body env st = (Ret tt, st')
    /\ check_count st' = Some (S c)
    /\ inspections st' = S (inspections st)
    /\ slept st' = slept st ++ [interval]
    /\ spawned st' = spawned st ++ [(ssl_cmd target port, 30)]
    /\ interrupted st' = interrupted st.
Proof.
  intros Hc. unfold poll_once.
  destruct st as [o con fl sp sl insp intr cc]. cbn in Hc. subst cc.
  pose proof (fun r => sleep_error_granted interval r interval_ok) as Hs.
  exec; eexists; repeat split.
Qed.

Lemma while_true_quiet fuel : forall st c,
  check_count st = Some c ->
  exists st',
    while_true fuel body env st = (@Running unit, st')
    /\ check_count st' = Some (c + fuel)%nat
    /\ inspections st' = (inspections st + fuel)%nat
    /\ slept st' = slept st ++ repeat interval fuel
    /\ spawned st' = spawned st ++ repeat (ssl_cmd target port, 30) fuel
    /\ interrupted st' = interrupted st.
Proof.
  induction fuel as [|fuel IH]; intros st c Hc.
  - exists st. cbn [while_true repeat]. rewrite !Nat.add_0_r, !app_nil_r.
    repeat split; assumption.
  - destruct (poll_once_quiet st c Hc) as (st1 & E1 & Hc1 & Hi1 & Hs1 & Hp1 & Hx1).
    destruct (IH st1 (S c) Hc1) as (st2 & E2 & Hc2 & Hi2 & Hs2 & Hp2 & Hx2).
    exists st2. cbn [while_true]. unfold bind at 1. rewrite E1, E2.
    rewrite Hc2, Hi2, Hs2, Hp2, Hx2, Hi1, Hs1, Hp1, Hx1.
    cbn [repeat]. rewrite <- !app_assoc. cbn [app].
    repeat split; try reflexivity; try lia; f_equal; lia.
Qed.

(** The loop is still running after any number of passes. *)
Lemma monitor_quiet fuel st :
  exists st',
    monitor fuel check_label stop_label target port interval log_filename env st
    = (Running, st')
    /\ check_count st' = Some fuel
    /\ inspections st' = (inspections st + fuel)%nat
    /\ slept st' = slept st ++ repeat interval fuel
    /\ spawned st' = spawned st ++ repeat (ssl_cmd target port, 30) fuel
    /\ interrupted st' = interrupted st.
Proof.
  unfold monitor, try_except, bind at 1, init_check_count, prim.
  rewrite (sigint_at_None _ _ never).
  destruct (while_true_quiet fuel (set_check_count 0 (begin_op st)) 0%nat eq_refl)
    as (st' & E & H).
  rewrite E. exists st'. split; [reflexivity | exact H].
Qed.

End Quiet.

Lemma monitor_quiet_initial env fuel cl sl target port interval log st :
  env_sigint env = None -> 0 <= interval <= sleep_safe ->
  inspections st = 0%nat -> slept st = [] -> spawned st = [] ->
  interrupted st = None ->
  exists st',
    monitor fuel cl sl target port interval log env st = (Running, st')
    /\ polled fuel target port interval st'.
Proof.
  intros Hn Hi H1 H2 H3 H4.
  destruct (monitor_quiet env Hn cl sl target log port interval Hi fuel st)
    as (st' & E & Hc & Hin & Hs & Hp & Hx).
  exists st'. split; [exact E|]. unfold polled.
  rewrite Hc, Hin, Hs, Hp, Hx, H1, H2, H3, H4. repeat split.
Qed.

Lemma V2_main_quiet env fuel prog :
  env_sigint env = None ->
  exists st',
    V2.main fuel [prog] env initial = (Running, st')
    /\ polled fuel "login.emory.edu" 443 60 st'.
Proof.
  intros Hn. unfold V2.main, announce. exec;
    (edestruct monitor_quiet_initial as (st' & E & H);
     [exact Hn | | | | | | rewrite E; exists st'; split; [reflexivity | exact H]];
     (reflexivity || (unfold sleep_safe; lia))).
Qed.

Lemma V3_main_quiet env fuel args :
  env_sigint env = None ->
  0 < V3.interval args <= sleep_safe -> 1 <= V3.port args <= 65535 ->
  exists st',
    V3.main fuel args env initial = (Running, st')
    /\ polled fuel (V3.website args) (V3.port args) (V3.interval args) st'.
Proof.
  intros Hn Hi Hp. unfold V3.main, announce.
  assert (E1 : (V3.interval args <=? 0) = false) by (apply Z.leb_gt; lia).
  assert (E2 : (V3.port args <=? 0) = false) by (apply Z.leb_gt; lia).
  assert (E3 : (65535 <? V3.port args) = false) by (apply Z.ltb_ge; lia).
  unfold_ops. rewrite E1, E2, E3. exec;
    (edestruct monitor_quiet_initial as (st' & E & H);
     [exact Hn | | | | | | rewrite E; exists st'; split; [reflexivity | exact H]];
     (reflexivity || lia)).
Qed.

(** C7: when appending to the log file fails, [write_to_file] reports the
    error on the console, leaves the files as they are and returns normally;
    and whatever the file system does, the polling loop of [ssl_checkV2.py]
    is still running after any number of passes. *)
Theorem log_write_failure_is_not_fatal :
  (forall env st filename content msg,
     sigint_at env (ops st) = false -> sigint_at env (S (ops st)) = false ->
     env_fs env (ops st) = Some msg ->
     exists st',
       write_to_file filename content env st = (Ret tt, st')
       /\ files st' = files st
       /\ console st' = console st ++ ["Error writing to file: " +:+ msg +:+ nl])
  /\ (forall env fuel prog,
        env_sigint env = None ->
        exists st,
          run (V2.main fuel [prog]) env = (StillRunning, st)
          /\ check_count st = Some fuel /\ inspections st = fuel).
Proof.
  split.
  - intros env st filename content msg H0 H1 H2.
    rewrite (write_to_file_failed _ _ _ _ _ H0 H1 H2).
    eexists. repeat split.
  - intros env fuel prog Hn.
    destruct (V2_main_quiet env fuel prog Hn) as (st & E & Hc & Hi & _).
    exists st. unfold run. rewrite E. auto.
Qed.

Lemma log_write_failure_is_not_fatal_witness :
  (exists st',
     write_to_file "ssl.log" "subject=CN = a"
       (steady None (Fails "") (Some "[Errno 13] Permission denied: 'ssl.log'"))
       initial = (Ret tt, st')
     /\ files st' = ∅
     /\ console st'
        = ["Error writing to file: [Errno 13] Permission denied: 'ssl.log'" +:+ nl])
  /\ fst (run (V2.main 3 ["ssl_checkV2.py"])
            (steady None (Fails "") (Some "[Errno 2] No such file or directory")))
     = StillRunning.
Proof.
  destruct log_write_failure_is_not_fatal as [Hw Hl]. split.
  - apply (Hw (steady None (Fails "") (Some "[Errno 13] Permission denied: 'ssl.log'"))
              initial "ssl.log" "subject=CN = a"); reflexivity.
  - destruct (Hl (steady None (Fails "") (Some "[Errno 2] No such file or directory"))
                3%nat "ssl_checkV2.py" eq_refl) as (st & E & _).
    rewrite E. reflexivity.
Defined.

(** ** An unreachable target *)

(** C5, as stated, fails: the loop does not go on for every configured
    interval.  [ssl_checkV3.py] accepts the interval 10000000000, which
    [time.sleep] refuses with [OverflowError]: with a target that fails on
    every check, the script makes one check and dies of that exception (exit
    status 1) without ever having slept.  And what a cycle yields is a plain
    string that carries no failure kind: a child that exits with status 1
    and a timeout can yield the same value. *)
Lemma unreachable_target_one_check :
  (let r := run (V3.main 3 {| V3.website := "login.emory.edu"; V3.port := 443;
                              V3.interval := 10000000000 |})
              (steady None (Exits 1 "" "") None) in
   fst r = Uncaught (OverflowError "timestamp too large to convert to C _PyTime_t")
   /\ status (fst r) = Some (ExitCode 1)
   /\ inspections (snd r) = 1%nat /\ slept (snd r) = []
   /\ interrupted (snd r) = None)
  /\ check_ssl_certificate "login.emory.edu" 443
       (steady None (Exits 1 "" "Command timed out") None) initial
     = check_ssl_certificate "login.emory.edu" 443
         (steady None (TimesOut "") None) initial.
Proof. vm_compute. repeat split. Qed.

(** C5, amended: when Ctrl+C never arrives and every child exits with a
    non-zero status (to the script, this is all that an unreachable target
    amounts to), every check returns "Error: " followed by the child's
    stripped standard error, and [ssl_checkV3.py], started with a valid port
    and an interval from 1 to [sleep_safe] seconds, is still running after
    any number [fuel] of passes, having made [fuel] checks and slept the
    configured interval after each. *)
Theorem unreachable_target_polling env args fuel :
  env_sigint env = None ->
  0 < V3.interval args <= sleep_safe -> 1 <= V3.port args <= 65535 ->
  (forall n, exists rc out err, env_run env n = Exits rc out err /\ rc <> 0) ->
  (forall st, exists rc out err st',
     env_run env (ops st) = Exits rc out err
     /\ check_ssl_certificate (V3.website args) (V3.port args) env st
        = (Ret ("Error: " +:+ Py.strip err), st'))
  /\ exists st,
       run (V3.main fuel args) env = (StillRunning, st)
       /\ check_count st = Some fuel
       /\ inspections st = fuel
       /\ slept st = repeat (V3.interval args) fuel
       /\ spawned st = repeat (ssl_cmd (V3.website args) (V3.port args), 30) fuel.
Proof.
  intros Hn Hi Hp Hrun. split.
  - intros st. destruct (Hrun (ops st)) as (rc & out & err & E & Hrc).
    exists rc, out, err. eexists. split; [exact E|].
    rewrite check_ssl_certificate_run by (now apply sigint_at_None).
    rewrite E. cbn. destruct (Z.eqb_spec rc 0); [contradiction | reflexivity].
  - destruct (V3_main_quiet env fuel args Hn Hi Hp) as (st & E & Hc & Hin & Hs & Hsp & _).
    exists st. unfold run. rewrite E. auto.
Qed.

Lemma unreachable_target_polling_witness :
  exists st,
    run (V3.main 4 {| V3.website := "login.emory.edu"; V3.port := 443;
                      V3.interval := 60 |})
        (steady None (Exits 1 "" "") None)
    = (StillRunning, st)
    /\ inspections st = 4%nat /\ slept st = [60; 60; 60; 60].
Proof.
  destruct (unreachable_target_polling
              (steady None (Exits 1 "" "") None)
              {| V3.website := "login.emory.edu"; V3.port := 443;
                 V3.interval := 60 |} 4)
    as (_ & st & E & _ & Hi & Hs & _).
  - reflexivity.
  - unfold sleep_safe. simpl. lia.
  - simpl. lia.
  - intros n. exists 1, "", "".
    split; [reflexivity | lia].
  - exists st. split; [exact E | split; [exact Hi | exact Hs]].
Defined.

(** ** The loop when Ctrl+C may arrive *)

(** Turns what is known about the tests [sigint_at] into arithmetic. *)
Ltac sigint_facts :=
  unfold armed, sigint_past, sigint_at in *; cbn in *;
  match goal with
  | |- context [env_sigint ?env] => destruct (env_sigint env)
  | H : context [env_sigint ?env] |- _ => destruct (env_sigint env)
  | _ => idtac
  end;
  repeat match goal with
  | H : (_ =? _)%nat = true |- _ => apply Nat.eqb_eq in H
  | H : (_ =? _)%nat = false |- _ => apply Nat.eqb_neq in H
  end;
  try discriminate; try lia; auto.

Section Interruptible.

Variable env : Env.
Variables (check_label stop_label target log_filename : string).
Variables (port interval : Z).

Local Abbreviation body :=
  (poll_once check_label target port interval log_filename).

(** One pass of the loop, started with [check_count] equal to the number
    of checks made so far. *)
Lemma poll_once_interruptible st c :
  check_count st = Some c -> inspections st = c ->
  interrupted st = None -> armed env st ->
  match body env st with
  | (Ret _, st') =>
      check_count st' = Some (S c) /\ inspections st' = S c
      /\ interrupted st' = None /\ armed env st'
      /\ (ops st < ops st')%nat /\ 0 <= interval <= sleep_max
  | (Raise KeyboardInterrupt, st') =>
      sigint_past env st' /\ counts_agree st' /\ interrupted st' <> None
  | (Raise (SystemExit _), _) | (Raise (UnboundLocalError _), _) => False
  | (Raise e, st') =>
      sleep_raises interval e /\ interrupted st' = None
      /\ (1 <= inspections st')%nat
  | (Running, _) => False
  end.
Proof.
  intros Hc Hi Hx Ha. unfold poll_once.
  destruct st as [o con fl sp sl insp intr cc]. cbn in Hc, Hi, Hx. subst cc insp intr.
  exec;
    repeat match goal with
    | |- _ /\ _ => split
    | |- counts_agree _ => eexists; cbn; split; [reflexivity|]
    | |- forall _, _ => intros
    | H : Some _ = Some _ |- _ => injection H as <-
    end;
    try reflexivity; try discriminate; try lia; try assumption;
    sigint_facts.
Qed.

Lemma while_true_interruptible fuel : forall st c,
  check_count st = Some c -> inspections st = c ->
  interrupted st = None -> armed env st ->
  match @while_true unit fuel body env st with
  | (Running, st') =>
      check_count st' = Some (c + fuel)%nat
      /\ inspections st' = (c + fuel)%nat
      /\ interrupted st' = None /\ armed env st'
      /\ (ops st + fuel <= ops st')%nat
  | (Raise KeyboardInterrupt, st') =>
      sigint_past env st' /\ counts_agree st' /\ interrupted st' <> None
  | (Raise (SystemExit _), _) | (Raise (UnboundLocalError _), _) => False
  | (Raise e, st') =>
      sleep_raises interval e /\ interrupted st' = None
      /\ (1 <= inspections st')%nat
  | (Ret _, _) => False
  end.
Proof.
  induction fuel as [|fuel IH]; intros st c Hc Hi Hx Ha.
  - cbn. rewrite !Nat.add_0_r. auto.
  - cbn [while_true]. unfold bind.
    pose proof (poll_once_interruptible st c Hc Hi Hx Ha) as H.
    destruct (body env st) as [[[]|e|] st1]; [| exact H | destruct H].
    destruct H as (Hc1 & Hi1 & Hx1 & Ha1 & Ho1 & _).
    specialize (IH st1 (S c) Hc1 Hi1 Hx1 Ha1).
    destruct (while_true fuel body env st1) as [[[]|e|] st2]; try exact IH.
    destruct IH as (Hc2 & Hi2 & Hx2 & Ha2 & Ho2).
    rewrite Hc2, Hi2. repeat split; auto; try (f_equal; lia); lia.
Qed.

(** The interrupt handler, which Ctrl+C cannot pre-empt any more. *)
Lemma on_interrupt_run st :
  sigint_past env st ->
  match on_interrupt stop_label log_filename env st with
  | (Raise (SystemExit code), st') =>
      code = 0 /\ check_count st <> None
      /\ check_count st' = check_count st
      /\ inspections st' = inspections st
      /\ interrupted st' = interrupted st
  | (Raise (UnboundLocalError _), st') =>
      check_count st = None /\ check_count st' = None
      /\ inspections st' = inspections st
      /\ interrupted st' = interrupted st
  | _ => False
  end.
Proof.
  intros Hp. unfold on_interrupt.
  destruct st as [o con fl sp sl insp intr [c|]]; exec; repeat split; congruence.
Qed.

Lemma counts_agree_ext st st' :
  check_count st' = check_count st -> inspections st' = inspections st ->
  interrupted st' = interrupted st -> counts_agree st -> counts_agree st'.
Proof. unfold counts_agree. intros -> -> ->. auto. Qed.

(** The loop with its handler, entered before any check was made. *)
Lemma monitor_interruptible fuel st :
  check_count st = None -> inspections st = 0%nat ->
  interrupted st = None -> armed env st ->
  match monitor fuel check_label stop_label target port interval
          log_filename env st with
  | (Raise (SystemExit code), st') =>
      code = 0 /\ counts_agree st' /\ interrupted st' <> None
  | (Raise (UnboundLocalError _), st') =>
      env_sigint env = Some (ops st) /\ check_count st' = None
      /\ inspections st' = 0%nat
  | (Raise KeyboardInterrupt, _) => False
  | (Raise e, st') =>
      sleep_raises interval e /\ interrupted st' = None
      /\ (1 <= inspections st')%nat
  | (Running, st') =>
      armed env st' /\ (ops st + fuel < ops st')%nat
      /\ interrupted st' = None /\ check_count st' = Some fuel
      /\ inspections st' = fuel
  | (Ret _, _) => False
  end.
Proof.
  intros Hc0 Hi Hx Ha.
  unfold monitor, try_except, bind at 1, init_check_count, prim.
  destruct (sigint_at env (ops st)) eqn:Hs.
  - cbn [select is_KeyboardInterrupt].
    assert (Hp : sigint_past env (mark_interrupted Assign (begin_op st)))
      by sigint_facts.
    pose proof (on_interrupt_run _ Hp) as H. cbn in H.
    destruct (on_interrupt stop_label log_filename env _) as [[[]|[]|] st'];
      try contradiction.
    + destruct H as (_ & Hc & _). congruence.
    + destruct H as (_ & Hc & Hin & _). repeat split; try congruence.
      clear - Hs. unfold sigint_at in Hs.
      destruct (env_sigint env); [|discriminate].
      apply Nat.eqb_eq in Hs. now subst.
  - assert (Ha' : armed env (set_check_count 0 (begin_op st))) by sigint_facts.
    pose proof (while_true_interruptible fuel (set_check_count 0 (begin_op st))
                  0%nat eq_refl Hi Hx Ha') as H.
    destruct (while_true fuel _ env _) as [[[]|e|] st1]; [contradiction | |].
    + destruct e; try contradiction; cbn [select is_KeyboardInterrupt];
        try exact H.
      destruct H as (Hp & Hag & Hne).
      pose proof (on_interrupt_run _ Hp) as H.
      destruct (on_interrupt stop_label log_filename env _) as [[[]|[]|] st'];
        try contradiction.
      * destruct H as (-> & _ & Hc & Hin & Hxx).
        split; [reflexivity|]. split; [|congruence].
        now apply (counts_agree_ext st1).
      * destruct H as (Hc & _). destruct Hag as (c & Hc' & _). congruence.
    + destruct H as (Hc & Hin & Hxx & Haa & Ho). cbn in Ho.
      repeat split; auto; lia.
Qed.

End Interruptible.

(** ** The scripts as a whole *)

(** Applies [monitor_interruptible] to the call of [monitor] in the goal. *)
Ltac enter_monitor :=
  match goal with
  | |- context [monitor ?f ?cl ?sl ?t ?p ?i ?l ?env ?s0] =>
      let H := fresh "HM" in
      let Ha := fresh "Ha" in
      let s1 := fresh "st" in
      assert (Ha : armed env s0) by sigint_facts;
      pose proof (monitor_interruptible env cl sl t l p i f s0
                    eq_refl eq_refl eq_refl Ha) as H;
      clear Ha;
      destruct (monitor f cl sl t p i l env s0) as [[[]|[]|] s1];
      try contradiction; cbn in H
  end.

Lemma sigint_at_true env n : sigint_at env n = true -> env_sigint env = Some n.
Proof.
  unfold sigint_at. destruct (env_sigint env); [|discriminate].
  intros H. apply Nat.eqb_eq in H. now subst.
Qed.

Lemma armed_lt env st k : armed env st -> env_sigint env = Some k -> (ops st <= k)%nat.
Proof. unfold armed. intros H E. now rewrite E in H. Qed.

Ltac close_main :=
  unfold main_post;
  repeat match goal with
  | H : _ /\ _ |- _ => destruct H
  | |- _ /\ _ => split
  | |- sleep_raises _ _ => unfold sleep_raises
  | H : sigint_at ?env ?n = true |- exists k, env_sigint ?env = Some k /\ _ =>
      exists n; split; [exact (sigint_at_true env n H) | lia]
  | H : env_sigint ?env = Some ?n |- exists k, env_sigint ?env = Some k /\ _ =>
      exists n; split; [exact H | lia]
  | Ha : armed ?env ?st, Hk : env_sigint ?env = Some ?k |- _ =>
      pose proof (armed_lt env st k Ha Hk); clear Ha
  | |- forall _, _ => intros
  end;
  try reflexivity; try assumption; try contradiction; try discriminate;
  try congruence; try lia.

Lemma V3_main_cases env fuel args :
  main_post env (V3_rejected args) (V3.interval args) fuel
    (V3.main fuel args env initial).
Proof.
  unfold V3_rejected, V3.main, announce. unfold_ops.
  destruct (Z.leb_spec (V3.interval args) 0) as [Hi|Hi]; cbn.
  { destruct (sigint_at env 0) eqn:?; cbn; [|right]; close_main; auto. }
  destruct (Z.leb_spec (V3.port args) 0) as [Hp|Hp]; cbn.
  { destruct (sigint_at env 0) eqn:?; cbn; [|right]; close_main; auto. }
  destruct (Z.ltb_spec 65535 (V3.port args)) as [Hq|Hq]; cbn.
  { destruct (sigint_at env 0) eqn:?; cbn; [|right]; close_main; auto. }
  repeat exec_one; try enter_monitor; close_main; left; close_main.
Qed.

Lemma V2_main_cases env fuel argv :
  main_post env (V2_rejected argv) (V2_interval argv) fuel
    (V2.main fuel argv env initial).
Proof.
  unfold V2_rejected, V2_interval.
  assert (Hno : forall prog, ~ exists p a r, [prog] = p :: a :: r /\ Py.int a = None)
    by (intros prog (p & a & r & E & _); discriminate E).
  assert (Hnil : ~ exists p a r, @nil string = p :: a :: r /\ Py.int a = None)
    by (intros (p & a & r & E & _); discriminate E).
  unfold V2.main, announce.
  destruct argv as [|prog [|arg rest]].
  - exec; try enter_monitor; close_main; left; close_main.
  - specialize (Hno prog).
    exec; try enter_monitor; close_main; left; close_main.
  - clear Hno Hnil. unfold int_of.
    destruct (Py.int arg) as [n|] eqn:En.
    + assert (Hok : ~ exists p a r, prog :: arg :: rest = p :: a :: r /\ Py.int a = None)
        by (intros (p & a & r & E & Ea); injection E as <- <- <-; congruence).
      exec; try enter_monitor; close_main; left; close_main.
    + exec; close_main; right; close_main; eauto.
Qed.

Lemma run_of_main_post env rejected interval fuel m :
  main_post env rejected interval fuel (m env initial) ->
  exit_status_of env rejected interval fuel (run m env)
  /\ (fst (run m env) = Exited 0 -> counts_agree (snd (run m env))).
Proof.
  unfold main_post, exit_status_of, run.
  destruct (m env initial) as [[[]|e|] st]; [contradiction | |];
    [destruct e|]; cbn; intros H.
  - destruct H as (Hi & Hc & k & Hk & Hlt).
    repeat split; try discriminate; eauto.
    intros k' Hk'. rewrite Hk in Hk'. injection Hk' as <-. lia.
  - destruct H as [(-> & Hr & Hc & Hx) | (-> & Hr & Hi & Hs & Hc)].
    + repeat split; try discriminate; auto; try contradiction.
      intros c [= <-]. now left.
    + repeat split; try discriminate; auto; try contradiction.
      intros c [= <-]. now right.
  - destruct H as (_ & [] & _).
  - destruct H as (Hr & Hs & Hx & Hi).
    repeat split; try discriminate; try contradiction.
    + intros _. right. right. eauto 8.
    + intros c [= <-]. now right.
    + intros k Hk Hlt _ Hint. unfold sleep_raises, sleep_max in Hs. lia.
  - destruct H as (Hr & Hi & k & Hk & Hlt).
    repeat split; try discriminate; try contradiction.
    + intros _. right. left. eauto 8.
    + intros c [= <-]. now right.
    + intros k' Hk'. rewrite Hk in Hk'. injection Hk' as <-. lia.
  - destruct H as (Hr & Hs & Hx & Hi).
    repeat split; try discriminate; try contradiction.
    + intros _. right. right. eauto 8.
    + intros c [= <-]. now right.
    + intros k Hk Hlt _ Hint. unfold sleep_raises, sleep_safe, sleep_max in *. lia.
  - destruct H as (Hr & Hs & Hx & Hi).
    repeat split; try discriminate; try contradiction.
    + intros _. right. right. eauto 8.
    + intros c [= <-]. now right.
    + intros k Hk Hlt _ Hint. unfold sleep_raises, sleep_safe, sleep_max in *. lia.
  - destruct H as (Hr & Hx & Hc & Hi & Hk).
    repeat split; try discriminate; try contradiction.
    intros k Hk' Hlt. specialize (Hk k Hk'). lia.
Qed.

(** ** [check_count] and the number of checks *)

Section Exact.

Variable env : Env.
Hypothesis writable : forall n, env_fs env n = None.
Variable k : nat.
Hypothesis sigint : env_sigint env = Some k.
Variables (check_label stop_label target log_filename : string).
Variables (port interval : Z).
Hypothesis interval_ok : 0 <= interval <= sleep_safe.

Local Abbreviation body :=
  (poll_once check_label target port interval log_filename).

Ltac child_cases :=
  try match goal with
      | |- context [env_run env ?n] => destruct (env_run env n); cbn
      end;
  try match goal with
      | |- context [if ?rc =? 0 then _ else _] => destruct (rc =? 0); cbn
      end.

Ltac at_op b :=
  match goal with
  | |- context [(k =? ?n)%nat] =>
      replace (k =? n)%nat with b
        by (symmetry; first [apply Nat.eqb_eq | apply Nat.eqb_neq]; lia)
  end.

Lemma sigint_at_eqb n : sigint_at env n = (k =? n)%nat.
Proof. unfold sigint_at. now rewrite sigint. Qed.

(** One pass, in terms of the position [i] of Ctrl+C in it. *)
Lemma poll_once_exact st c :
  check_count st = Some c -> inspections st = c -> interrupted st = None ->
  (ops st + 11 <= k ->
   exists st',
     body env st = (Ret tt, st') /\ ops st' = (ops st + 11)%nat
     /\ check_count st' = Some (S c) /\ inspections st' = S c
     /\ interrupted st' = None)%nat
  /\ (forall i, k = (ops st + i)%nat -> (i < 11)%nat ->
      exists st',
        body env st = (Raise KeyboardInterrupt, st')
        /\ sigint_past env st'
        /\ check_count st' = Some (if (i =? 0)%nat then c else S c)
        /\ inspections st' = (if (i <=? 3)%nat then c else S c)
        /\ interrupted st' = pass_ops !! i).
Proof.
  intros Hc Hi Hx. unfold poll_once.
  destruct st as [o con fl sp sl insp intr cc]. cbn in Hc, Hi, Hx. subst cc insp intr.
  pose proof (fun r => sleep_error_granted interval r interval_ok) as Hs.
  cbn [ops]. split.
  - intros Hk.
    assert (forall n, (n < o + 11)%nat -> sigint_at env n = false) as Hno
      by (intros n Hn; rewrite sigint_at_eqb; apply Nat.eqb_neq; lia).
    unfold_ops. cbn.
    repeat (rewrite Hno by lia; cbn; rewrite ?writable, ?Hs; cbn; child_cases).
    all: eexists; split; [reflexivity|]; cbn; repeat split; lia.
  - intros i Hki Hlt. unfold_ops. cbn.
    assert (Hp : forall s, (k < ops s)%nat -> sigint_past env s)
      by (intros s Hlts; unfold sigint_past; now rewrite sigint).
    do 11 (rewrite ?sigint_at_eqb;
           destruct i as [|i];
           [ at_op true; cbn; eexists; split; [reflexivity|];
             split; [apply Hp; cbn; lia | repeat split]
           | at_op false; cbn; rewrite ?writable, ?Hs; cbn; child_cases ]).
    all: lia.
Qed.

Lemma while_true_exact j : forall fuel st c i,
  check_count st = Some c -> inspections st = c -> interrupted st = None ->
  k = (ops st + 11 * j + i)%nat -> (i < 11)%nat -> (j < fuel)%nat ->
  exists st',
    @while_true unit fuel body env st = (Raise KeyboardInterrupt, st')
    /\ sigint_past env st'
    /\ check_count st' = Some (if (i =? 0)%nat then c + j else S (c + j))%nat
    /\ inspections st' = (if (i <=? 3)%nat then c + j else S (c + j))%nat
    /\ interrupted st' = pass_ops !! i.
Proof.
  induction j as [|j IH]; intros fuel st c i Hc Hi Hx Hk Hlt Hf;
    (destruct fuel as [|fuel]; [lia|]); cbn [while_true]; unfold bind.
  - destruct (poll_once_exact st c Hc Hi Hx) as [_ H].
    destruct (H i) as (st' & E & Hr); [lia | exact Hlt |].
    rewrite E, !Nat.add_0_r. exists st'. split; [reflexivity | exact Hr].
  - destruct (poll_once_exact st c Hc Hi Hx) as [H _].
    destruct H as (st1 & E & Ho & Hc1 & Hi1 & Hx1); [lia|].
    rewrite E.
    destruct (IH fuel st1 (S c) i Hc1 Hi1 Hx1) as (st' & E' & Hr);
      [lia | exact Hlt | lia |].
    rewrite E'. exists st'. split; [reflexivity|].
    replace (S c + j)%nat with (c + S j)%nat in Hr by lia. exact Hr.
Qed.

(** The loop and its handler, entered at operation [ops st]. *)
Lemma monitor_exact fuel st j i :
  inspections st = 0%nat -> interrupted st = None ->
  k = (S (ops st) + 11 * j + i)%nat -> (i < 11)%nat -> (j < fuel)%nat ->
  exists st',
    monitor fuel check_label stop_label target port interval log_filename
      env st = (Raise (SystemExit 0), st')
    /\ check_count st' = Some (if (i =? 0)%nat then j else S j)
    /\ inspections st' = (if (i <=? 3)%nat then j else S j)
    /\ interrupted st' = pass_ops !! i.
Proof.
  intros Hi Hx Hk Hlt Hf.
  unfold monitor, try_except, bind at 1, init_check_count, prim.
  rewrite sigint_at_eqb.
  replace (k =? ops st)%nat with false by (symmetry; apply Nat.eqb_neq; lia).
  destruct (while_true_exact j fuel (set_check_count 0 (begin_op st)) 0%nat i
              eq_refl Hi Hx Hk Hlt Hf) as (st1 & E & Hp & Hc1 & Hi1 & Hx1).
  rewrite E. cbn [select is_KeyboardInterrupt].
  pose proof (on_interrupt_run env stop_label log_filename st1 Hp) as H.
  destruct (on_interrupt stop_label log_filename env st1) as [[[]|[]|] st'];
    try contradiction.
  - destruct H as (-> & _ & Hc & Hin & Hxx). exists st'.
    split; [reflexivity|]. rewrite Hc, Hin, Hxx. auto.
  - destruct H as (Hc & _). rewrite Hc in Hc1. discriminate Hc1.
Qed.

End Exact.

Lemma V2_main_exact env fuel argv j i :
  (forall n, env_fs env n = None) ->
  env_sigint env = Some (6 + 11 * j + i)%nat -> (i < 11)%nat -> (j < fuel)%nat ->
  ~ V2_rejected argv -> 0 <= V2_interval argv <= sleep_safe ->
  cancelled_in_pass j i (run (V2.main fuel argv) env).
Proof.
  intros writable Hk Hlt Hf Hr Hint.
  assert (forall n, (n < 6)%nat -> sigint_at env n = false) as Hno
    by (intros n Hn; unfold sigint_at; rewrite Hk; apply Nat.eqb_neq; lia).
  pose proof (Hno 0%nat ltac:(lia)) as H0. pose proof (Hno 1%nat ltac:(lia)) as H1.
  pose proof (Hno 2%nat ltac:(lia)) as H2. pose proof (Hno 3%nat ltac:(lia)) as H3.
  pose proof (Hno 4%nat ltac:(lia)) as H4. clear Hno.
  unfold run, V2.main, announce, int_of.
  assert (Hi : exists n, V2_interval argv = n
                 /\ match argv with
                    | _ :: arg :: _ => Py.int arg = Some n
                    | _ => n = 60
                    end).
  { destruct argv as [|prog [|arg rest]]; [eauto | eauto |].
    cbn. destruct (Py.int arg) as [n|] eqn:E; [eauto|].
    destruct Hr. now exists prog, arg, rest. }
  destruct Hi as (n & En & Harg). rewrite En in Hint.
  destruct argv as [|prog [|arg rest]]; [subst n | subst n | rewrite Harg];
    exec.
  all: match goal with
       | |- context [monitor ?f ?cl ?sl ?t ?p ?iv ?l ?e ?s0] =>
           destruct (monitor_exact e writable _ Hk cl sl t l p iv Hint f s0 j i
                       eq_refl eq_refl eq_refl Hlt Hf) as (st' & E & H);
           rewrite E; exact (conj eq_refl H)
       end.
Qed.

Lemma V3_main_exact env fuel args j i :
  (forall n, env_fs env n = None) ->
  env_sigint env = Some (6 + 11 * j + i)%nat -> (i < 11)%nat -> (j < fuel)%nat ->
  ~ V3_rejected args -> V3.interval args <= sleep_safe ->
  cancelled_in_pass j i (run (V3.main fuel args) env).
Proof.
  intros writable Hk Hlt Hf Hr Hint. unfold V3_rejected in Hr.
  assert (forall n, (n < 6)%nat -> sigint_at env n = false) as Hno
    by (intros n Hn; unfold sigint_at; rewrite Hk; apply Nat.eqb_neq; lia).
  pose proof (Hno 0%nat ltac:(lia)) as H0. pose proof (Hno 1%nat ltac:(lia)) as H1.
  pose proof (Hno 2%nat ltac:(lia)) as H2. pose proof (Hno 3%nat ltac:(lia)) as H3.
  pose proof (Hno 4%nat ltac:(lia)) as H4. clear Hno.
  assert (E1 : (V3.interval args <=? 0) = false) by (apply Z.leb_gt; lia).
  assert (E2 : (V3.port args <=? 0) = false) by (apply Z.leb_gt; lia).
  assert (E3 : (65535 <? V3.port args) = false) by (apply Z.ltb_ge; lia).
  assert (Hint' : 0 <= V3.interval args <= sleep_safe) by lia.
  unfold run, V3.main, announce. unfold_ops. rewrite E1, E2, E3. exec.
  all: match goal with
       | |- context [monitor ?f ?cl ?sl ?t ?p ?iv ?l ?e ?s0] =>
           destruct (monitor_exact e writable _ Hk cl sl t l p iv Hint' f s0 j i
                       eq_refl eq_refl eq_refl Hlt Hf) as (st' & E & H);
           rewrite E; exact (conj eq_refl H)
       end.
Qed.

(** C2, as stated, fails: when Ctrl+C arrives while the header of the first
    check is being printed, [check_count] has been incremented but
    [check_ssl_certificate] has not been called; the script reports one
    check and made none. *)
Lemma check_count_ahead_of_checks :
  let r := run (V2.main 3 ["ssl_checkV2.py"])
             (steady (Some 8%nat) (Exits 0 "subject=CN = login.emory.edu" "") None) in
  fst r = Exited 0
  /\ check_count (snd r) = Some 1%nat
  /\ inspections (snd r) = 0%nat
  /\ interrupted (snd r) = Some Print
  /\ last (console (snd r)) <> None.
Proof. vm_compute. repeat split; discriminate. Qed.

(** C2, amended: when [ssl_checkV2.py] or [ssl_checkV3.py] ends through the
    interrupt handler, [check_count] is the number of calls of
    [check_ssl_certificate], or that number plus one; the two are equal
    whenever Ctrl+C arrived during the child process, the sleep or an
    assignment.  When every write to the log succeeds, the start-up takes
    six operations and every pass of the loop the eleven of [pass_ops]; if
    Ctrl+C arrives at operation [i] of pass [j], the script exits with code
    0 having made [j] checks if [i <= 3] and [j + 1] otherwise, and
    [check_count] is [j] if [i = 0] and [j + 1] otherwise: it is one ahead
    exactly for [i] = 1, 2, 3, the clock reading, the print and the log
    write of the check header. *)
Theorem check_count_at_cancellation env fuel :
  (forall argv st,
     run (V2.main fuel argv) env = (Exited 0, st) -> counts_agree st)
  /\ (forall args st,
        run (V3.main fuel args) env = (Exited 0, st) -> counts_agree st)
  /\ (forall j i,
        (forall n, env_fs env n = None) ->
        env_sigint env = Some (6 + 11 * j + i)%nat ->
        (i < 11)%nat -> (j < fuel)%nat ->
        (forall argv,
           ~ V2_rejected argv -> 0 <= V2_interval argv <= sleep_safe ->
           cancelled_in_pass j i (run (V2.main fuel argv) env))
        /\ (forall args,
              ~ V3_rejected args -> V3.interval args <= sleep_safe ->
              cancelled_in_pass j i (run (V3.main fuel args) env))).
Proof.
  split; [|split].
  - intros argv st E.
    destruct (run_of_main_post _ _ _ _ _ (V2_main_cases env fuel argv)) as [_ H].
    rewrite E in H. now apply H.
  - intros args st E.
    destruct (run_of_main_post _ _ _ _ _ (V3_main_cases env fuel args)) as [_ H].
    rewrite E in H. now apply H.
  - intros j i writable Hk Hlt Hf. split.
    + intros argv. now apply V2_main_exact.
    + intros args. now apply V3_main_exact.
Qed.

Lemma check_count_at_cancellation_witness :
  (let r := run (V2.main 3 ["ssl_checkV2.py"])
              (steady (Some 9%nat) (Exits 0 "subject=CN = login.emory.edu" "") None) in
   fst r = Exited 0 /\ check_count (snd r) = Some 1%nat
   /\ inspections (snd r) = 0%nat /\ interrupted (snd r) = Some FileAppend)
  /\ (let r := run (V3.main 3 {| V3.website := "login.emory.edu"; V3.port := 443;
                                 V3.interval := 60 |})
                 (steady (Some 27%nat) (Exits 0 "subject=CN = login.emory.edu" "") None) in
      fst r = Exited 0 /\ check_count (snd r) = Some 2%nat
      /\ inspections (snd r) = 2%nat /\ interrupted (snd r) = Some Sleep).
Proof.
  split.
  - destruct (check_count_at_cancellation
                (steady (Some 9%nat) (Exits 0 "subject=CN = login.emory.edu" "") None) 3)
      as (_ & _ & H).
    destruct (H 0%nat 3%nat) as [H2 _];
      [intros n; reflexivity | reflexivity | lia | lia |].
    apply (H2 ["ssl_checkV2.py"]).
    + intros (p & a & r & E & _). discriminate E.
    + unfold sleep_safe. simpl. lia.
  - destruct (check_count_at_cancellation
                (steady (Some 27%nat) (Exits 0 "subject=CN = login.emory.edu" "") None) 3)
      as (_ & _ & H).
    destruct (H 1%nat 10%nat) as [_ H3];
      [intros n; reflexivity | reflexivity | lia | lia |].
    apply (H3 {| V3.website := "login.emory.edu"; V3.port := 443;
                 V3.interval := 60 |}).
    + unfold V3_rejected. simpl. lia.
    + unfold sleep_safe. simpl. lia.
Defined.

(** ** Exit status *)

Lemma script_parsed {A} (parser : list string -> parsed A) argv args
    (main : A -> M unit) env st :
  parser argv = Namespace args ->
  (let* a := parse_args parser argv in main a) env st = main args env st.
Proof. intros E. unfold bind, parse_args. now rewrite E. Qed.

Lemma script_leaves {A} (parser : list string -> parsed A) argv
    (main : A -> M unit) env :
  match parser argv with
  | Namespace _ => True
  | Help text =>
      leaves_at_once env 0 [text]
        (run (let* a := parse_args parser argv in main a) env)
  | Unparsable _ =>
      leaves_at_once env 2 []
        (run (let* a := parse_args parser argv in main a) env)
  end.
Proof.
  unfold leaves_at_once, run, bind, parse_args.
  destruct (parser argv) as [args|text|message]; [exact I | |];
    unfold_ops; cbn; destruct (sigint_at env 0); cbn;
    repeat split; intros; first [reflexivity | discriminate].
Qed.




(** ** Validation of the configuration *)

(** C3 does not hold on every path.  The combined server argument
    "example.com:70000" is accepted by
    [ssl_checker_with_server_and_website.py], which goes on to start a child
    for port 70000; [ssl_checkV2.py] accepts the interval 0 and polls without
    pause, and accepts -5, makes a check and only then fails in
    [time.sleep]. *)
Theorem invalid_port_and_interval_accepted :
  (let r := run (ServerWebsite.main 1
                   {| ServerWebsite.server := "example.com:70000";
                      ServerWebsite.website := "example.com";
                      ServerWebsite.interval := 60 |})
              (steady None (Exits 1 "" "") None) in
   fst r = StillRunning
   /\ spawned (snd r) = [(ssl_cmd "example.com" 70000, 30)])
  /\ (let r := run (V2.main 2 ["ssl_checkV2.py"; "0"])
                 (steady None (Exits 1 "" "") None) in
      fst r = StillRunning /\ inspections (snd r) = 2%nat
      /\ slept (snd r) = [0; 0])
  /\ (let r := run (V2.main 2 ["ssl_checkV2.py"; "-5"])
                 (steady None (Exits 1 "" "") None) in
      fst r = Uncaught (ValueError "sleep length must be non-negative")
      /\ length (spawned (snd r)) = 1%nat).
Proof. vm_compute. repeat split. Qed.

(** ** Console and log file *)

Lemma console_add_console x st : console (add_console x st) = console st ++ [x].
Proof. reflexivity. Qed.
Lemma console_add_file f x st : console (add_file f x st) = console st.
Proof. reflexivity. Qed.
Lemma console_begin_op st : console (begin_op st) = console st.
Proof. reflexivity. Qed.
Lemma console_mark k st : console (mark_interrupted k st) = console st.
Proof. reflexivity. Qed.
Lemma console_add_spawned c st : console (add_spawned c st) = console st.
Proof. reflexivity. Qed.
Lemma console_add_slept n st : console (add_slept n st) = console st.
Proof. reflexivity. Qed.
Lemma console_add_inspection st : console (add_inspection st) = console st.
Proof. reflexivity. Qed.
Lemma console_set_check_count c st : console (set_check_count c st) = console st.
Proof. reflexivity. Qed.

Lemma files_add_console x st : files (add_console x st) = files st.
Proof. reflexivity. Qed.
Lemma files_begin_op st : files (begin_op st) = files st.
Proof. reflexivity. Qed.
Lemma files_mark k st : files (mark_interrupted k st) = files st.
Proof. reflexivity. Qed.
Lemma files_add_spawned c st : files (add_spawned c st) = files st.
Proof. reflexivity. Qed.
Lemma files_add_slept n st : files (add_slept n st) = files st.
Proof. reflexivity. Qed.
Lemma files_add_inspection st : files (add_inspection st) = files st.
Proof. reflexivity. Qed.
Lemma files_set_check_count c st : files (set_check_count c st) = files st.
Proof. reflexivity. Qed.

Lemma files_add_file_singleton log x st (l : list string) :
  files st = {[ log := l ]} -> files (add_file log x st) = {[ log := l ++ [x] ]}.
Proof.
  intros H. unfold add_file. cbn [files]. rewrite H.
  rewrite lookup_singleton_eq. cbn [default]. apply insert_singleton_eq.
Qed.

Lemma files_add_file_empty log x st :
  files st = ∅ -> files (add_file log x st) = {[ log := [x] ]}.
Proof.
  intros H. unfold add_file. cbn [files]. rewrite H.
  rewrite lookup_empty. cbn [default app]. apply insert_empty.
Qed.

Create Rewrite HintDb state.
#[global] Hint Rewrite console_add_console console_add_file console_begin_op
  console_mark console_add_spawned console_add_slept console_add_inspection
  console_set_check_count files_add_console files_begin_op files_mark
  files_add_spawned files_add_slept files_add_inspection
  files_set_check_count : state.

Ltac now_past :=
  match goal with
  | H : sigint_at ?env ?n = true |- sigint_past ?env _ =>
      unfold sigint_past; rewrite (sigint_at_true env n H); cbn; lia
  end.

(** Computes the files of a state built from one whose files are known. *)
Ltac files_eq :=
  autorewrite with state;
  first [ eassumption
        | eapply files_add_file_singleton; files_eq ].

(** Proves [synced log st'] for a state built from a synced one. *)
Ltac solve_synced :=
  match goal with
  | Hc : console ?st = ?b :: hint_text :: ?r, Hf : files ?st = {[ ?log := _ ]}
    |- synced ?log _ =>
      unfold synced; eexists _, _; split;
      [ autorewrite with state; rewrite Hc; cbn [app]; reflexivity
      | etransitivity; [files_eq | cbn [app]; reflexivity] ]
  end.

Section Logged.

Variable env : Env.
Hypothesis writable : forall n, env_fs env n = None.
Variables (check_label stop_label target log : string).
Variables (port interval : Z).

Lemma poll_once_logged st :
  synced log st ->
  match poll_once check_label target port interval log env st with
  | (Ret _, st') => synced log st'
  | (Raise KeyboardInterrupt, st') =>
      sigint_past env st'
      /\ (interrupted st' = Some FileAppend \/ synced log st')
  | (Raise (SystemExit _), _) => False
  | _ => True
  end.
Proof.
  intros (banner & rest & Hc & Hf). unfold poll_once.
  destruct (check_count st) as [c|] eqn:Hcc.
  2:{ unfold_ops. rewrite Hcc. exact I. }
  unfold_ops. rewrite Hcc.
  repeat exec_one; try exact I; try solve_synced;
    (split; [now_past | first [left; reflexivity | right; solve_synced]]).
Qed.

Lemma while_true_logged fuel : forall st,
  synced log st ->
  match @while_true unit fuel
          (poll_once check_label target port interval log) env st with
  | (Raise KeyboardInterrupt, st') =>
      sigint_past env st'
      /\ (interrupted st' = Some FileAppend \/ synced log st')
  | (Raise (SystemExit _), _) => False
  | _ => True
  end.
Proof.
  induction fuel as [|fuel IH]; intros st Hs; [exact I|].
  cbn [while_true]. unfold bind.
  pose proof (poll_once_logged st Hs) as H.
  destruct (poll_once _ _ _ _ _ env st) as [[[]|e|] st1]; [| exact H | exact I].
  now apply IH.
Qed.

Lemma on_interrupt_logged st :
  sigint_past env st -> synced log st ->
  match on_interrupt stop_label log env st with
  | (Raise (SystemExit _), st') =>
      synced log st' /\ interrupted st' = interrupted st
  | _ => True
  end.
Proof.
  intros Hp (banner & rest & Hc & Hf). unfold on_interrupt. unfold_ops.
  rewrite (sigint_past_at env st (ops st) Hp) by lia. cbn.
  destruct (check_count st) as [c|] eqn:Hcc; cbn; [|exact I].
  repeat exec_one; try exact I.
  split; [solve_synced | reflexivity].
Qed.

Lemma on_interrupt_keeps_interrupted st :
  sigint_past env st ->
  interrupted (snd (on_interrupt stop_label log env st)) = interrupted st.
Proof.
  intros Hp. unfold on_interrupt. unfold_ops.
  rewrite (sigint_past_at env st (ops st) Hp) by lia. cbn.
  destruct (check_count st) as [c|] eqn:Hcc; cbn; [|reflexivity].
  repeat exec_one; reflexivity.
Qed.

Lemma monitor_logged fuel st :
  synced log st ->
  match monitor fuel check_label stop_label target port interval log env st with
  | (Raise (SystemExit _), st') =>
      interrupted st' = Some FileAppend \/ synced log st'
  | _ => True
  end.
Proof.
  intros Hs. unfold monitor, try_except, bind at 1, init_check_count, prim.
  destruct (sigint_at env (ops st)) eqn:Hsig.
  - cbn [select is_KeyboardInterrupt].
    assert (Hp : sigint_past env (mark_interrupted Assign (begin_op st)))
      by now_past.
    assert (Hs' : synced log (mark_interrupted Assign (begin_op st)))
      by (destruct Hs as (b & r & Hc & Hf); solve_synced).
    pose proof (on_interrupt_logged _ Hp Hs') as H.
    destruct (on_interrupt stop_label log env _) as [[[]|[]|] st']; try exact I.
    right. apply H.
  - assert (Hs' : synced log (set_check_count 0 (begin_op st)))
      by (destruct Hs as (b & r & Hc & Hf); solve_synced).
    pose proof (while_true_logged fuel _ Hs') as H.
    destruct (while_true fuel _ env _) as [[[]|[]|] st1];
      try exact I; try contradiction.
    cbn [select is_KeyboardInterrupt]. destruct H as (Hp & H).
    pose proof (on_interrupt_keeps_interrupted st1 Hp) as Hk.
    pose proof (on_interrupt_logged st1 Hp) as Hl.
    destruct (on_interrupt stop_label log env st1) as [[[]|[]|] st']; try exact I.
    cbn in Hk. destruct H as [H|H]; [left; congruence | right; now apply Hl].
Qed.

End Logged.

Lemma synced_after_banner log banner st :
  console st = [] -> files st = ∅ ->
  synced log
    (add_console hint_text
       (begin_op (add_file log banner (begin_op (add_console banner st))))).
Proof.
  intros Hc Hf. exists banner, []. split.
  - autorewrite with state. now rewrite Hc.
  - autorewrite with state. apply files_add_file_empty.
    now autorewrite with state.
Qed.

Lemma V2_main_logged env fuel argv :
  (forall n, env_fs env n = None) ->
  match V2.main fuel argv env initial with
  | (Raise (SystemExit code), st) =>
      code = 1 \/ interrupted st = Some FileAppend \/ exists log, synced log st
  | _ => True
  end.
Proof.
  intros writable. unfold V2.main, announce, int_of.
  destruct argv as [|prog [|arg rest]]; [| |destruct (Py.int arg)];
    exec; try exact I; try (left; reflexivity);
    match goal with
    | |- context [monitor ?f ?cl ?sl ?t ?p ?i ?l env ?s0] =>
        let H := fresh "H" in
        pose proof (monitor_logged env writable cl sl t l p i f s0) as H;
        destruct (monitor f cl sl t p i l env s0) as [[[]|[]|] st'];
        try exact I;
        right;
        destruct H as [H|H];
        [ apply synced_after_banner; reflexivity
        | left; exact H
        | right; exists l; exact H ]
    end.
Qed.

(** C4, as stated, fails: the hint "Press Ctrl+C to stop" and the empty
    line after it are written to the console only.  Here Ctrl+C arrives
    during the first sleep and every write to the log succeeds. *)
Lemma hint_is_console_only :
  let r := run (V2.main 2 ["ssl_checkV2.py"])
             (steady (Some 16%nat) (Exits 0 "subject=CN = login.emory.edu" "") None) in
  fst r = Exited 0
  /\ interrupted (snd r) = Some Sleep
  /\ existsb (String.eqb hint_text) (console (snd r)) = true
  /\ exists content,
       files (snd r)
         !! "script_output/ssl_check_login.emory.edu_20240517_120009.log"
       = Some content
       /\ existsb (String.eqb hint_text) content = false
       /\ length (console (snd r)) = S (length content).
Proof.
  vm_compute. repeat split. eexists. repeat split.
Qed.

(** C4, amended: when every write to the log succeeds, the run of
    [ssl_checkV2.py] ends through the interrupt handler and Ctrl+C did not
    pre-empt a log write, the log file holds the texts written to the
    console (banner, check headers, results, separators, final summary) in
    the same order, except for the hint "Press Ctrl+C to stop", which is
    written to the console only. *)
Theorem log_mirrors_console env fuel argv st :
  (forall n, env_fs env n = None) ->
  run (V2.main fuel argv) env = (Exited 0, st) ->
  interrupted st <> Some FileAppend ->
  exists log banner rest,
    console st = banner :: hint_text :: rest
    /\ files st = {[ log := banner :: rest ]}.
Proof.
  intros writable E Hx. unfold run in E.
  pose proof (V2_main_logged env fuel argv writable) as Hl.
  pose proof (V2_main_cases env fuel argv) as Hc.
  destruct (V2.main fuel argv env initial) as [[[]|[]|] st']; try discriminate E;
    try contradiction.
  injection E as -> ->.
  destruct Hl as [Hl | [Hl | (log & banner & rest & H1 & H2)]];
    [discriminate Hl | contradiction | eauto].
Qed.

Lemma log_mirrors_console_witness :
  exists st log banner rest,
    run (V2.main 2 ["ssl_checkV2.py"])
        (steady (Some 16%nat) (Exits 0 "subject=CN = login.emory.edu" "") None)
    = (Exited 0, st)
    /\ console st = banner :: hint_text :: rest
    /\ files st = {[ log := banner :: rest ]}
    /\ length rest = 6%nat.
Proof.
  eexists.
  edestruct (log_mirrors_console
               (steady (Some 16%nat) (Exits 0 "subject=CN = login.emory.edu" "") None)
               2 ["ssl_checkV2.py"])
    as (log & banner & rest & Hc & Hf).
  - reflexivity.
  - vm_compute. reflexivity.
  - vm_compute. discriminate.
  - exists log, banner, rest. split; [vm_compute; reflexivity|].
    split; [exact Hc|]. split; [exact Hf|].
    vm_compute in Hc. injection Hc as _ <-. reflexivity.
Defined.

(** ** Decimal text of integers *)

Lemma pretty_N_char_digit d :
  (d < 10)%N ->
  Py.isdigit (pretty_N_char d) = true
  /\ Py.digit_value (pretty_N_char d) = Z.of_N d.
Proof.
  intros H.
  assert (d = 0 \/ d = 1 \/ d = 2 \/ d = 3 \/ d = 4 \/ d = 5 \/ d = 6
          \/ d = 7 \/ d = 8 \/ d = 9)%N as Hd by lia.
  repeat (destruct Hd as [-> | Hd]); try subst d; split; reflexivity.
Qed.

Lemma pretty_N_go_digits x : forall s,
  all_digits s = true ->
  all_digits (pretty_N_go x s) = true
  /\ decimal_value (pretty_N_go x s)
     = Z.of_N x * 10 ^ Z.of_nat (String.length s) + decimal_value s.
Proof.
  induction (N.lt_wf_0 x) as [x _ IH]. intros s Hs.
  assert (x = 0 \/ 0 < x)%N as [-> | Hx] by lia.
  - rewrite pretty_N_go_0. split; [exact Hs | lia].
  - rewrite pretty_N_go_step by exact Hx.
    destruct (pretty_N_char_digit (x `mod` 10)%N) as [Hd Hv];
      [apply N.mod_lt; lia|].
    destruct (IH (x `div` 10)%N (N.div_lt x 10 Hx eq_refl)
                (String (pretty_N_char (x `mod` 10)) s)) as [Ha Hval].
    { cbn [all_digits]. now rewrite Hd, Hs. }
    split; [exact Ha|]. rewrite Hval. cbn [decimal_value String.length].
    rewrite Hv, Nat2Z.inj_succ, Z.pow_succ_r by lia.
    rewrite (N.div_mod x 10) at 3 by lia. rewrite N2Z.inj_add, N2Z.inj_mul.
    change (Z.of_N 10) with 10. ring.
Qed.

Lemma pretty_N_digits (x : N) :
  all_digits (pretty x) = true /\ pretty x <> EmptyString
  /\ decimal_value (pretty x) = Z.of_N x.
Proof.
  unfold pretty, pretty_N. case_decide as Hx.
  - subst x. repeat split. discriminate.
  - destruct (pretty_N_go_digits x "" eq_refl) as [Ha Hv].
    cbn [String.length decimal_value] in Hv.
    repeat split; [exact Ha | | lia].
    intros E. rewrite E in Hv. cbn in Hv. lia.
Qed.

Lemma contains_char_digits c s :
  Py.isdigit c = false -> all_digits s = true -> Py.contains c s = false.
Proof.
  intros Hc. induction s as [|d r IH]; cbn; [reflexivity|].
  intros H. apply andb_true_iff in H as [Hd Hr].
  destruct (Ascii.eqb_spec d c) as [->|]; [congruence | auto].
Qed.

Lemma contains_append c a b :
  Py.contains c (a +:+ b) = Py.contains c a || Py.contains c b.
Proof.
  induction a as [|d a IH]; [reflexivity|].
  change (String d a +:+ b) with (String d (a +:+ b)). cbn [Py.contains].
  rewrite IH. now destruct (Ascii.eqb d c).
Qed.

(** [int(str(n))] is [n], for an [n] within the limit of [int]. *)
Lemma int_str n :
  (String.length (Py.str n) <= Py.max_str_digits)%nat ->
  Py.int (Py.str n) = Some n.
Proof.
  unfold Py.str, pretty, pretty_Z. destruct n as [|p|p]; [reflexivity| |].
  - destruct (pretty_N_digits (N.pos p)) as (Ha & Hne & Hv).
    change (pretty p) with (pretty (N.pos p)). intros Hlen.
    rewrite (int_of_digits _ Ha Hne Hlen), Hv. reflexivity.
  - destruct (pretty_N_digits (N.pos p)) as (Ha & Hne & Hv).
    change (pretty p) with (pretty (N.pos p)).
    change ("-" +:+ pretty (N.pos p)) with (String "-" (pretty (N.pos p))).
    intros Hlen. cbn [String.length] in Hlen. unfold Py.int.
    change (Py.int_lstrip (String "-" (pretty (N.pos p))))
      with (String "-" (pretty (N.pos p))).
    cbn [Py.int_rstrip]. rewrite (rstrip_digits _ Ha).
    destruct (pretty (N.pos p)) as [|c r] eqn:E; [congruence|].
    rewrite int_literal_short by (rewrite count_digits_all by exact Ha; lia).
    rewrite int_digits_value by auto.
    cbn [fmap option_fmap option_map]. f_equal. lia.
Qed.

Lemma str_no_char c n :
  Py.isdigit c = false -> c <> "-"%char -> Py.contains c (Py.str n) = false.
Proof.
  intros Hc Hm. unfold Py.str, pretty, pretty_Z. destruct n as [|p|p].
  - apply contains_char_digits; [exact Hc | reflexivity].
  - change (pretty p) with (pretty (N.pos p)).
    apply contains_char_digits; [exact Hc | apply pretty_N_digits].
  - change (pretty p) with (pretty (N.pos p)).
    change ("-" +:+ pretty (N.pos p)) with (String "-" (pretty (N.pos p))).
    cbn [Py.contains]. destruct (Ascii.eqb_spec "-" c) as [E|]; [congruence|].
    apply contains_char_digits; [exact Hc | apply pretty_N_digits].
Qed.

(** ** The command line handed to bash *)

Example shape_of_intended_command :
  Sh.structure (ssl_command "login.emory.edu" 443)
  = [ ["echo ";
       " openssl s_client -connect login.emory.edu:443 -servername login.emory.edu 2>/dev/null ";
       " openssl x509 -noout -subject -issuer -dates -ext subjectAltName"] ].
Proof. reflexivity. Qed.

Lemma split_plain c s : Py.contains c s = false -> Sh.split c s = [s].
Proof.
  induction s as [|d r IH]; cbn [Py.contains Sh.split]; [reflexivity|].
  destruct (Ascii.eqb d c); [discriminate|]. intros H. now rewrite IH.
Qed.

Lemma split_cons c s : exists piece pieces, Sh.split c s = piece :: pieces.
Proof.
  destruct s as [|d r]; cbn [Sh.split]; [eauto|].
  destruct (Sh.split c r) as [|p ps]; [eauto|].
  destruct (Ascii.eqb d c); eauto.
Qed.

Lemma split_at c a b :
  Py.contains c a = false ->
  Sh.split c (a +:+ String c b) = a :: Sh.split c b.
Proof.
  induction a as [|d a IH].
  - intros _. change ("" +:+ String c b) with (String c b). cbn [Sh.split].
    destruct (split_cons c b) as (p & ps & ->). now rewrite Ascii.eqb_refl.
  - change (String d a +:+ String c b) with (String d (a +:+ String c b)).
    cbn [Py.contains Sh.split]. destruct (Ascii.eqb d c); [discriminate|].
    intros H. now rewrite (IH H).
Qed.

Lemma no_metachar_contains c s :
  Sh.metachar c = true -> Sh.no_metachar s = true -> Py.contains c s = false.
Proof.
  intros Hc. induction s as [|d r IH]; cbn [Sh.no_metachar Py.contains];
    [reflexivity|].
  intros H. apply andb_true_iff in H as [Hd Hr].
  destruct (Ascii.eqb_spec d c) as [->|]; [|auto].
  rewrite Hc in Hd. discriminate Hd.
Qed.

Lemma plain_no_metachar s : Sh.no_metachar s = true -> Sh.plain s = s.
Proof.
  induction s as [|d r IH]; cbn [Sh.no_metachar Sh.plain]; [reflexivity|].
  intros H. apply andb_true_iff in H as [Hd Hr].
  destruct (Sh.metachar d); [discriminate Hd|]. now rewrite IH.
Qed.

Lemma plain_app a b : Sh.plain (a +:+ b) = Sh.plain a +:+ Sh.plain b.
Proof.
  induction a as [|d a IH]; [reflexivity|].
  change (String d a +:+ b) with (String d (a +:+ b)). cbn [Sh.plain].
  destruct (Sh.metachar d); [exact IH|]. now rewrite IH.
Qed.

(** Decides that a text put together from literals, hosts without
    metacharacters and decimal numbers holds no [;] or [|]. *)
Ltac no_separator :=
  rewrite ?contains_append;
  repeat match goal with
  | H : Sh.no_metachar ?h = true |- context [Py.contains ?c ?h] =>
      rewrite (no_metachar_contains c h eq_refl H)
  | |- context [Py.contains ?c (Py.str ?n)] =>
      rewrite (str_no_char c n eq_refl) by discriminate
  end;
  reflexivity.

(** C9: whatever the host and the port, [check_ssl_certificate] hands
    [bash -c] the command line in which the host, as it is, follows
    "-connect " and "-servername " and the decimal text of the port follows
    the colon: nothing is quoted or escaped.  So two hosts that differ only
    in a shell metacharacter make bash run commands of different structure:
    for a host [h1 h2] without metacharacters, one pipeline of three stages;
    for [h1;h2], three commands, the second of which begins with [h2]. *)
Theorem host_is_interpolated_unquoted :
  (forall env st hostname port,
     sigint_at env (ops st) = false ->
     last (spawned (snd (check_ssl_certificate hostname port env st)))
     = Some (["bash"; "-c";
              "echo | openssl s_client -connect " +:+ hostname +:+ ":"
              +:+ Py.str port +:+ " -servername " +:+ hostname
              +:+ " 2>/dev/null | openssl x509 -noout -subject -issuer -dates -ext subjectAltName"],
             30))
  /\ (forall h1 h2 port,
        Sh.no_metachar h1 = true -> Sh.no_metachar h2 = true ->
        Sh.plain (h1 +:+ ";" +:+ h2) = Sh.plain (h1 +:+ h2)
        /\ Sh.structure (ssl_command (h1 +:+ h2) port)
           = [ ["echo ";
                " openssl s_client -connect " +:+ (h1 +:+ h2) +:+ ":"
                +:+ Py.str port +:+ " -servername " +:+ (h1 +:+ h2)
                +:+ " 2>/dev/null ";
                " openssl x509 -noout -subject -issuer -dates -ext subjectAltName"] ]
        /\ Sh.structure (ssl_command (h1 +:+ ";" +:+ h2) port)
           = [ ["echo "; " openssl s_client -connect " +:+ h1];
               [h2 +:+ ":" +:+ Py.str port +:+ " -servername " +:+ h1];
               [h2 +:+ " 2>/dev/null ";
                " openssl x509 -noout -subject -issuer -dates -ext subjectAltName"] ]).
Proof.
  split.
  - intros env st hostname port H0.
    change (["bash"; "-c";
             "echo | openssl s_client -connect " +:+ hostname +:+ ":"
             +:+ Py.str port +:+ " -servername " +:+ hostname
             +:+ " 2>/dev/null | openssl x509 -noout -subject -issuer -dates -ext subjectAltName"])
      with (ssl_cmd hostname port).
    unfold_ops. cbn. rewrite H0. cbn.
    destruct (sigint_at env (S (ops st))); cbn.
    + apply last_snoc.
    + destruct (env_run env (ops st)) as [rc out err|m|m]; cbn;
        [destruct (rc =? 0)|..]; cbn; apply last_snoc.
  - intros h1 h2 port P1 P2. split; [|split].
    + rewrite !plain_app. reflexivity.
    + unfold Sh.structure, ssl_command.
      rewrite split_plain by no_separator. cbn [map].
      change ("echo | openssl s_client -connect " +:+ ?x)
        with ("echo " +:+ String "|" (" openssl s_client -connect " +:+ x)).
      rewrite split_at by reflexivity.
      replace (" openssl s_client -connect " +:+ (h1 +:+ h2) +:+ ":"
               +:+ Py.str port +:+ " -servername " +:+ (h1 +:+ h2)
               +:+ " 2>/dev/null | "
               +:+ "openssl x509 -noout -subject -issuer -dates -ext subjectAltName")
        with ((" openssl s_client -connect " +:+ (h1 +:+ h2) +:+ ":"
               +:+ Py.str port +:+ " -servername " +:+ (h1 +:+ h2)
               +:+ " 2>/dev/null ")
              +:+ String "|"
                    " openssl x509 -noout -subject -issuer -dates -ext subjectAltName")
        by (now rewrite !append_assoc).
      rewrite split_at by no_separator.
      rewrite split_plain by reflexivity. reflexivity.
    + unfold Sh.structure, ssl_command.
      replace ("echo | openssl s_client -connect " +:+ (h1 +:+ ";" +:+ h2) +:+ ":"
               +:+ Py.str port +:+ " -servername " +:+ (h1 +:+ ";" +:+ h2)
               +:+ " 2>/dev/null | "
               +:+ "openssl x509 -noout -subject -issuer -dates -ext subjectAltName")
        with (("echo | openssl s_client -connect " +:+ h1)
              +:+ String ";"
                    ((h2 +:+ ":" +:+ Py.str port +:+ " -servername " +:+ h1)
                     +:+ String ";"
                           (h2 +:+ " 2>/dev/null | "
                            +:+ "openssl x509 -noout -subject -issuer -dates -ext subjectAltName")))
        by (now rewrite !append_assoc).
      rewrite split_at by no_separator.
      rewrite split_at by no_separator.
      rewrite split_plain by no_separator. cbn [map].
      change ("echo | openssl s_client -connect " +:+ h1)
        with ("echo " +:+ String "|" (" openssl s_client -connect " +:+ h1)).
      rewrite split_at by reflexivity.
      rewrite (split_plain "|" (" openssl s_client -connect " +:+ h1))
        by no_separator.
      rewrite (split_plain "|" (h2 +:+ ":" +:+ Py.str port +:+ " -servername " +:+ h1))
        by no_separator.
      replace (h2 +:+ " 2>/dev/null | "
               +:+ "openssl x509 -noout -subject -issuer -dates -ext subjectAltName")
        with ((h2 +:+ " 2>/dev/null ")
              +:+ String "|"
                    " openssl x509 -noout -subject -issuer -dates -ext subjectAltName")
        by (now rewrite !append_assoc).
      rewrite split_at by no_separator.
      rewrite split_plain by reflexivity. reflexivity.
Qed.

Lemma host_is_interpolated_unquoted_witness :
  Sh.structure (ssl_command "a.example;reboot" 8443)
  = [ ["echo "; " openssl s_client -connect a.example"];
      ["reboot:8443 -servername a.example"];
      ["reboot 2>/dev/null ";
       " openssl x509 -noout -subject -issuer -dates -ext subjectAltName"] ].
Proof.
  destruct host_is_interpolated_unquoted as [_ H].
  destruct (H "a.example" "reboot" 8443 eq_refl eq_refl) as (_ & _ & E).
  exact E.
Defined.

(** * Further properties of the scripts *)

(** ** [parse_hostname_port], continued *)

Lemma rsplit_last_spec s :
  Py.contains ":" s = true ->
  exists h p,
    Py.rsplit_last ":" s = Some (h, p)
    /\ s = h +:+ ":" +:+ p /\ Py.contains ":" p = false.
Proof.
  induction s as [|c r IH]; cbn [Py.contains Py.rsplit_last]; [discriminate|].
  intros H. destruct (Py.contains ":" r) eqn:Hr.
  - destruct (IH eq_refl) as (h & p & E & -> & Hp). rewrite E.
    exists (String c h), p. repeat split; assumption.
  - rewrite (rsplit_last_None _ Hr).
    destruct (Ascii.eqb_spec c ":") as [->|]; [|discriminate H].
    exists EmptyString, r. repeat split; assumption.
Qed.

(** X1: what the scripts write, [parse_hostname_port] parses back: for
    every host text and every integer [port] whose decimal text has at most
    4300 characters, negative or beyond 65535 included, the text
    [host:port], built as the f-strings of the scripts build it, is parsed
    into [host] and [port]. *)
Theorem parse_hostname_port_of_formatted env st hostname port :
  (String.length (Py.str port) <= 4300)%nat ->
  parse_hostname_port (hostname +:+ ":" +:+ Py.str port) env st
  = (Ret (hostname, port), st).
Proof.
  intros Hlen.
  unfold parse_hostname_port. rewrite contains_app. unfold Py.rsplit1.
  rewrite rsplit_last_app by (now apply str_no_char).
  unfold try_except, bind, int_of. now rewrite (int_str _ Hlen).
Qed.

Lemma parse_hostname_port_of_formatted_witness :
  parse_hostname_port ("[::1]" +:+ ":" +:+ Py.str (-70000))
    (steady None (Fails "") None) initial
  = (Ret ("[::1]", -70000), initial).
Proof.
  apply parse_hostname_port_of_formatted. vm_compute. lia.
Defined.

(** X2: the three ways [parse_hostname_port] can go.  Without a colon the
    argument is the host and the port is 443.  With one, the argument is cut
    at its last colon; if what follows reads as an integer, that integer is
    the port, whatever its size or sign; if not, and Ctrl+C does not arrive
    first, the message naming the bad port text is printed and the script
    exits with code 1, no child started and no file written.  The unpacking
    of [rsplit]'s result never fails. *)
Theorem parse_hostname_port_cases env st arg :
  sigint_at env (ops st) = false ->
  (Py.contains ":" arg = false
   /\ parse_hostname_port arg env st = (Ret (arg, 443), st))
  \/ exists h p,
       arg = h +:+ ":" +:+ p /\ Py.contains ":" p = false
       /\ ((exists n, Py.int p = Some n
            /\ parse_hostname_port arg env st = (Ret (h, n), st))
           \/ (Py.int p = None
               /\ exists st',
                    parse_hostname_port arg env st = (Raise (SystemExit 1), st')
                    /\ console st'
                       = console st
                         ++ ["Error: Invalid port number '" +:+ p +:+ "'" +:+ nl]
                    /\ spawned st' = spawned st /\ files st' = files st)).
Proof.
  intros H0. unfold parse_hostname_port.
  destruct (Py.contains ":" arg) eqn:Hc; [right | left; auto].
  destruct (rsplit_last_spec _ Hc) as (h & p & E & -> & Hp).
  exists h, p. split; [reflexivity|]. split; [exact Hp|].
  unfold Py.rsplit1. rewrite E. unfold int_of.
  destruct (Py.int p) as [n|] eqn:En.
  - left. exists n. split; reflexivity.
  - right. split; [reflexivity|]. unfold_ops. cbn. rewrite H0.
    eexists. split; [reflexivity|]. cbn. repeat split.
    now rewrite !append_assoc.
Qed.

Lemma parse_hostname_port_cases_witness :
  exists st',
    parse_hostname_port "login.emory.edu:https"
      (steady None (Fails "") None) initial
    = (Raise (SystemExit 1), st')
    /\ console st' = ["Error: Invalid port number 'https'" +:+ nl].
Proof.
  destruct (parse_hostname_port_cases (steady None (Fails "") None) initial
              "login.emory.edu:https" eq_refl)
    as [[Hc _] | (h & p & E & Hp & [(n & Hn & _) | (Hn & st' & Hr & Hcon & _)])].
  - vm_compute in Hc. discriminate Hc.
  - exfalso. revert Hn.
    assert (Hs : Py.rsplit_last ":" "login.emory.edu:https"
                 = Some (h, p)) by (rewrite E; now apply rsplit_last_app).
    vm_compute in Hs. injection Hs as <- <-. vm_compute. discriminate.
  - exists st'. split; [exact Hr|]. rewrite Hcon.
    assert (Hs : Py.rsplit_last ":" "login.emory.edu:https"
                 = Some (h, p)) by (rewrite E; now apply rsplit_last_app).
    vm_compute in Hs. injection Hs as <- <-. reflexivity.
Defined.

(** ** Log file names *)

Lemma clean_cons c r :
  V3.clean (String c r)
  = String (if Ascii.eqb c ":" || Ascii.eqb c "/" || Ascii.eqb c "."
            then "_"%char else c) (V3.clean r).
Proof.
  unfold V3.clean. cbn [Py.replace]. f_equal.
  destruct (Ascii.eqb_spec c ":") as [->|]; [reflexivity|].
  destruct (Ascii.eqb_spec c "/") as [->|]; [reflexivity|].
  destruct (Ascii.eqb_spec c ".") as [->|]; reflexivity.
Qed.

(** X3: the website name cleaned for use in a file name has the length of
    the original, holds no colon, slash or dot, and cleaning it again
    changes nothing. *)
Theorem clean_is_safe w :
  Py.contains ":" (V3.clean w) = false
  /\ Py.contains "/" (V3.clean w) = false
  /\ Py.contains "." (V3.clean w) = false
  /\ String.length (V3.clean w) = String.length w
  /\ V3.clean (V3.clean w) = V3.clean w.
Proof.
  induction w as [|c r (H1 & H2 & H3 & H4 & H5)]; [repeat split|].
  rewrite clean_cons.
  destruct (Ascii.eqb_spec c ":") as [->|N1]; cbn [orb].
  { rewrite clean_cons. cbn [Py.contains String.length].
    rewrite H1, H2, H3, H4, H5. repeat split. }
  destruct (Ascii.eqb_spec c "/") as [->|N2]; cbn [orb].
  { rewrite clean_cons. cbn [Py.contains String.length].
    rewrite H1, H2, H3, H4, H5. repeat split. }
  destruct (Ascii.eqb_spec c ".") as [->|N3]; cbn [orb].
  { rewrite clean_cons. cbn [Py.contains String.length].
    rewrite H1, H2, H3, H4, H5. repeat split. }
  rewrite clean_cons. cbn [Py.contains String.length].
  rewrite H1, H2, H3, H4, H5.
  destruct (Ascii.eqb_spec c ":"); [contradiction|].
  destruct (Ascii.eqb_spec c "/"); [contradiction|].
  destruct (Ascii.eqb_spec c "."); [contradiction|].
  repeat split.
Qed.

Lemma repeat_zero_no_slash k : Py.contains "/" (Py.repeat "0" k) = false.
Proof. induction k as [|k IH]; [reflexivity|]. exact IH. Qed.

Lemma zfill_no_slash w n : Py.contains "/" (zfill w n) = false.
Proof.
  unfold zfill. rewrite contains_append, repeat_zero_no_slash.
  now apply str_no_char.
Qed.

Lemma strftime_compact_no_slash t : Py.contains "/" (strftime_compact t) = false.
Proof.
  unfold strftime_compact.
  rewrite !contains_append, !zfill_no_slash. reflexivity.
Qed.

Lemma clean_no_slash w : Py.contains "/" (V3.clean w) = false.
Proof.
  induction w as [|c r IH]; [reflexivity|].
  rewrite clean_cons. cbn [Py.contains]. rewrite IH.
  destruct (Ascii.eqb_spec c ":") as [->|]; [reflexivity|].
  destruct (Ascii.eqb_spec c "/") as [->|N]; [reflexivity|].
  destruct (Ascii.eqb_spec c ".") as [->|]; [reflexivity|].
  cbn [orb]. now destruct (Ascii.eqb_spec c "/").
Qed.

Lemma V3_log_name_no_slash args t : Py.contains "/" (V3_log_name args t) = false.
Proof.
  unfold V3_log_name. rewrite !contains_append.
  rewrite (clean_no_slash (V3.website args)).
  rewrite strftime_compact_no_slash, str_no_char by (reflexivity || discriminate).
  reflexivity.
Qed.

Lemma ServerWebsite_log_name_no_slash args t :
  Py.contains "/" (ServerWebsite_log_name args t) = false.
Proof.
  unfold ServerWebsite_log_name. rewrite !contains_append.
  rewrite (clean_no_slash (ServerWebsite.website args)).
  rewrite strftime_compact_no_slash. reflexivity.
Qed.

(** ** What is written to files *)

Lemma appends_only_refl log st : appends_only log st st.
Proof. now left. Qed.

Lemma appends_only_files log st s s' :
  files s' = files s -> appends_only log st s -> appends_only log st s'.
Proof. unfold appends_only. now intros ->. Qed.

Lemma appends_only_begin_op log st s :
  appends_only log st s -> appends_only log st (begin_op s).
Proof. now apply appends_only_files. Qed.
Lemma appends_only_mark log st k s :
  appends_only log st s -> appends_only log st (mark_interrupted k s).
Proof. now apply appends_only_files. Qed.
Lemma appends_only_add_console log st x s :
  appends_only log st s -> appends_only log st (add_console x s).
Proof. now apply appends_only_files. Qed.
Lemma appends_only_add_spawned log st c s :
  appends_only log st s -> appends_only log st (add_spawned c s).
Proof. now apply appends_only_files. Qed.
Lemma appends_only_add_slept log st n s :
  appends_only log st s -> appends_only log st (add_slept n s).
Proof. now apply appends_only_files. Qed.
Lemma appends_only_add_inspection log st s :
  appends_only log st s -> appends_only log st (add_inspection s).
Proof. now apply appends_only_files. Qed.
Lemma appends_only_set_check_count log st c s :
  appends_only log st s -> appends_only log st (set_check_count c s).
Proof. now apply appends_only_files. Qed.

Lemma appends_only_add_file log st x s :
  appends_only log st s -> appends_only log st (add_file log x s).
Proof.
  unfold appends_only, add_file. cbn [files]. intros [-> | [more ->]]; right.
  - now exists [x].
  - exists (more ++ [x]). rewrite lookup_insert_eq. cbn [default].
    now rewrite insert_insert_eq, app_assoc.
Qed.

Lemma appends_only_trans log st1 st2 st3 :
  appends_only log st1 st2 -> appends_only log st2 st3 ->
  appends_only log st1 st3.
Proof.
  unfold appends_only. intros H12 [-> | [m2 ->]]; [exact H12|].
  destruct H12 as [-> | [m1 ->]]; right.
  - now exists m2.
  - exists (m1 ++ m2). rewrite lookup_insert_eq. cbn [default].
    now rewrite insert_insert_eq, app_assoc.
Qed.

Ltac peel_appends :=
  lazymatch goal with
  | |- appends_only _ _ (add_file _ _ _) => apply appends_only_add_file
  | |- appends_only _ _ (begin_op _) => apply appends_only_begin_op
  | |- appends_only _ _ (mark_interrupted _ _) => apply appends_only_mark
  | |- appends_only _ _ (add_console _ _) => apply appends_only_add_console
  | |- appends_only _ _ (add_spawned _ _) => apply appends_only_add_spawned
  | |- appends_only _ _ (add_slept _ _) => apply appends_only_add_slept
  | |- appends_only _ _ (add_inspection _) => apply appends_only_add_inspection
  | |- appends_only _ _ (set_check_count _ _) =>
      apply appends_only_set_check_count
  end.

Ltac solve_appends :=
  cbn [snd fst]; repeat peel_appends;
  first [assumption | apply appends_only_refl].

Section Appends.

Variable env : Env.
Variables (check_label stop_label target log : string).
Variables (port interval : Z).

Lemma poll_once_appends st :
  appends_only log st
    (snd (poll_once check_label target port interval log env st)).
Proof.
  unfold poll_once. unfold_ops.
  destruct (check_count st) as [c|] eqn:Hcc; cbn; [|apply appends_only_refl].
  repeat exec_one; solve_appends.
Qed.

Lemma while_true_appends fuel : forall st,
  appends_only log st
    (snd (@while_true unit fuel
            (poll_once check_label target port interval log) env st)).
Proof.
  induction fuel as [|fuel IH]; intros st; [apply appends_only_refl|].
  cbn [while_true]. unfold bind.
  pose proof (poll_once_appends st) as H.
  destruct (poll_once _ _ _ _ _ env st) as [[[]|e|] st1]; cbn [snd] in *;
    try exact H.
  eapply appends_only_trans; [exact H | apply IH].
Qed.

Lemma on_interrupt_appends st :
  appends_only log st (snd (on_interrupt stop_label log env st)).
Proof.
  unfold on_interrupt. unfold_ops.
  destruct (sigint_at env (ops st)); cbn; [solve_appends|].
  destruct (check_count st) as [c|] eqn:Hcc; cbn; [|solve_appends].
  repeat exec_one; solve_appends.
Qed.

Lemma monitor_appends fuel st :
  appends_only log st
    (snd (monitor fuel check_label stop_label target port interval log env st)).
Proof.
  unfold monitor, try_except, bind at 1, init_check_count, prim.
  destruct (sigint_at env (ops st)).
  - cbn [select is_KeyboardInterrupt].
    eapply appends_only_trans; [|apply on_interrupt_appends]. solve_appends.
  - pose proof (while_true_appends fuel (set_check_count 0 (begin_op st))) as H.
    destruct (while_true fuel _ env _) as [[[]|e|] st1]; cbn [snd] in *.
    + eapply appends_only_trans; [|exact H]. solve_appends.
    + assert (H1 : appends_only log st st1)
        by (eapply appends_only_trans; [|exact H]; solve_appends).
      destruct e; cbn [select is_KeyboardInterrupt snd]; try exact H1.
      eapply appends_only_trans; [exact H1 | apply on_interrupt_appends].
    + eapply appends_only_trans; [|exact H]. solve_appends.
Qed.

End Appends.

(** X4: whatever the environment does, the polling loop and its interrupt
    handler write to no file but the log, and only ever append to the log:
    what the log held when the loop was entered is still there, in front. *)
Theorem monitor_appends_only env fuel cl sl target port interval log st :
  let st' := snd (monitor fuel cl sl target port interval log env st) in
  (forall f, f <> log -> files st' !! f = files st !! f)
  /\ exists more,
       default [] (files st' !! log) = default [] (files st !! log) ++ more.
Proof.
  cbn zeta.
  destruct (monitor_appends env cl sl target log port interval fuel st)
    as [E | [more E]]; rewrite E.
  - split; [reflexivity|]. exists []. now rewrite app_nil_r.
  - split.
    + intros f Hne. now rewrite lookup_insert_ne by congruence.
    + exists more. now rewrite lookup_insert_eq.
Qed.

Lemma snd_run m env : snd (run m env) = snd (m env initial).
Proof. unfold run. now destruct (m env initial) as [[[]|[]|] st]. Qed.

Lemma appends_only_initial log st f :
  appends_only log initial st -> is_Some (files st !! f) -> f = log.
Proof.
  intros [E | [more E]] [l Hl]; rewrite E in Hl; cbn [files initial] in Hl.
  - rewrite lookup_empty in Hl. discriminate Hl.
  - destruct (decide (log = f)) as [<-|Hne]; [reflexivity|].
    rewrite lookup_insert_ne, lookup_empty in Hl by exact Hne. discriminate Hl.
Qed.

(** Finishes a goal [appends_only log initial (snd ...)] once the start-up
    of a script has been executed. *)
Ltac main_appends :=
  lazymatch goal with
  | |- appends_only _ _ (snd (monitor _ _ _ _ _ _ _ _ _)) =>
      eapply appends_only_trans; [|apply monitor_appends]; solve_appends
  | _ => solve_appends
  end.

Lemma V2_main_appends env fuel argv :
  appends_only (V2_log_name (env_now env 0)) initial
    (snd (V2.main fuel argv env initial)).
Proof.
  unfold V2.main, announce, int_of, V2_log_name.
  destruct argv as [|prog [|arg rest]]; [| |destruct (Py.int arg)];
    exec; main_appends.
Qed.

Lemma V3_main_appends env fuel args :
  appends_only (V3_log_name args (env_now env 0)) initial
    (snd (V3.main fuel args env initial)).
Proof.
  unfold V3.main, announce, V3_log_name. exec; main_appends.
Qed.

Lemma ServerWebsite_main_appends env fuel args :
  appends_only (ServerWebsite_log_name args (env_now env 0)) initial
    (snd (ServerWebsite.main fuel args env initial)).
Proof.
  unfold ServerWebsite.main, announce, ServerWebsite_log_name,
    parse_hostname_port, int_of.
  destruct (ServerWebsite.interval args <=? 0); [exec; main_appends|].
  destruct (Py.contains ":" (ServerWebsite.server args)).
  - destruct (Py.rsplit1 ":" (ServerWebsite.server args)) as [|h [|p [|x l]]];
      try (exec; main_appends).
    destruct (Py.int p); exec; main_appends.
  - exec; main_appends.
Qed.

(** X5: a run of a logging script writes to one file only, the log whose
    name it computed at start-up; for [ssl_checkV3.py] and
    [ssl_checker_with_server_and_website.py] that name holds no slash,
    whatever the website argument is, so the log stays in the current
    directory. *)
Theorem one_log_file env fuel :
  (forall argv f,
     is_Some (files (snd (run (V2.main fuel argv) env)) !! f) ->
     f = V2_log_name (env_now env 0))
  /\ (forall args f,
        is_Some (files (snd (run (V3.main fuel args) env)) !! f) ->
        f = V3_log_name args (env_now env 0) /\ Py.contains "/" f = false)
  /\ (forall args f,
        is_Some (files (snd (run (ServerWebsite.main fuel args) env)) !! f) ->
        f = ServerWebsite_log_name args (env_now env 0)
        /\ Py.contains "/" f = false).
Proof.
  split; [|split].
  - intros argv f. rewrite snd_run.
    apply appends_only_initial, V2_main_appends.
  - intros args f H. rewrite snd_run in H.
    apply (appends_only_initial _ _ _ (V3_main_appends env fuel args)) in H.
    subst f. split; [reflexivity | apply V3_log_name_no_slash].
  - intros args f H. rewrite snd_run in H.
    apply (appends_only_initial _ _ _ (ServerWebsite_main_appends env fuel args)) in H.
    subst f. split; [reflexivity | apply ServerWebsite_log_name_no_slash].
Qed.

Lemma one_log_file_witness :
  is_Some (files (snd (run (V3.main 2 {| V3.website := "../../etc/x.y";
                                         V3.port := 443; V3.interval := 60 |})
                         (steady (Some 16%nat) (Fails "") None)))
           !! "ssl_check_______etc_x_y_443_20240517_120009.log")
  /\ Py.contains "/" "ssl_check_______etc_x_y_443_20240517_120009.log" = false.
Proof.
  assert (H : is_Some (files (snd (run (V3.main 2 {| V3.website := "../../etc/x.y";
                                         V3.port := 443; V3.interval := 60 |})
                         (steady (Some 16%nat) (Fails "") None)))
           !! "ssl_check_______etc_x_y_443_20240517_120009.log"))
    by (vm_compute; eexists; reflexivity).
  split; [exact H|].
  destruct (one_log_file (steady (Some 16%nat) (Fails "") None) 2) as (_ & H3 & _).
  exact (proj2 (H3 _ _ H)).
Defined.

(** ** Ctrl+C during a call *)

(** X6: [check_ssl_certificate] does not swallow the operator's Ctrl+C.
    Whatever the child does, a Ctrl+C that arrives before the child is
    started or while it runs leaves the function as [KeyboardInterrupt], not
    as an "Error:" string; the call has been counted, and a child has been
    started only in the second case. *)
Theorem check_ssl_certificate_interrupted env st hostname port k :
  env_sigint env = Some k -> (ops st <= k <= S (ops st))%nat ->
  exists st',
    check_ssl_certificate hostname port env st = (Raise KeyboardInterrupt, st')
    /\ inspections st' = S (inspections st)
    /\ length (spawned st') = (length (spawned st) + (k - ops st))%nat
    /\ console st' = console st.
Proof.
  intros Hk Hr. unfold_ops. unfold sigint_at. rewrite Hk. cbn.
  destruct (Nat.eqb_spec k (ops st)) as [->|Hne]; cbn.
  - eexists. repeat split. cbn. lia.
  - assert (k = S (ops st)) as -> by lia. rewrite Nat.eqb_refl. cbn.
    eexists. repeat split. cbn. rewrite length_app. cbn. lia.
Qed.

Lemma check_ssl_certificate_interrupted_witness :
  exists st',
    check_ssl_certificate "login.emory.edu" 443
      (steady (Some 1%nat) (Exits 0 "subject=CN = login.emory.edu" "") None)
      initial
    = (Raise KeyboardInterrupt, st')
    /\ length (spawned st') = 1%nat.
Proof.
  destruct (check_ssl_certificate_interrupted
              (steady (Some 1%nat) (Exits 0 "subject=CN = login.emory.edu" "") None)
              initial "login.emory.edu" 443 1%nat eq_refl)
    as (st' & E & _ & Hs & _); [simpl; lia|].
  exists st'. split; [exact E | exact Hs].
Defined.

(** ** Writes to the log *)

(** X7: two successful calls of [write_to_file] for the same file leave
    the two contents, each followed by a newline, at the end of that file in
    the order of the calls; what the file held before is kept, other files
    and the console are untouched. *)
Theorem writes_append_in_order env st filename a b :
  sigint_at env (ops st) = false -> sigint_at env (S (ops st)) = false ->
  env_fs env (ops st) = None -> env_fs env (S (ops st)) = None ->
  exists st',
    (write_to_file filename a >> write_to_file filename b) env st = (Ret tt, st')
    /\ files st' !! filename
       = Some (default [] (files st !! filename) ++ [a +:+ nl; b +:+ nl])
    /\ (forall other, other <> filename ->
        files st' !! other = files st !! other)
    /\ console st' = console st.
Proof.
  intros H0 H1 F0 F1. unfold bind.
  rewrite (write_to_file_ok env st filename a H0 F0).
  rewrite write_to_file_ok by assumption.
  eexists. split; [reflexivity|]. cbn [files console add_file begin_op].
  repeat split.
  - rewrite !lookup_insert_eq. cbn [from_option id]. now rewrite <- app_assoc.
  - intros other Hne. now rewrite !lookup_insert_ne by congruence.
Qed.

Lemma writes_append_in_order_witness :
  exists st',
    (write_to_file "ssl.log" "first" >> write_to_file "ssl.log" "second")
      (steady None (Fails "") None) initial = (Ret tt, st')
    /\ files st' !! "ssl.log" = Some ["first" +:+ nl; "second" +:+ nl].
Proof.
  destruct (writes_append_in_order (steady None (Fails "") None) initial
              "ssl.log" "first" "second")
    as (st' & E & Hf & _); try reflexivity.
  exists st'. split; [exact E | exact Hf].
Defined.

Section Unwritable.

Variable env : Env.
Hypothesis unwritable : forall n, env_fs env n <> None.
Variables (check_label stop_label target log : string).
Variables (port interval : Z).






End Unwritable.



(** ** Checks and sleeps *)

Lemma repeat_snoc {A} (x : A) n : repeat x n ++ [x] = repeat x (S n).
Proof. induction n as [|n IH]; [reflexivity|]. cbn. now rewrite IH. Qed.

Lemma paced_even_paced cmd interval st :
  paced_even cmd interval st -> paced cmd interval st.
Proof. intros (n & Hs & Hl). exists n, n. repeat split; auto. Qed.

(** Proves [paced] or [paced_even] of a state built from one whose
    children and sleeps are [n] repetitions. *)
Ltac solve_paced :=
  match goal with
  | Hs : spawned ?st = repeat _ ?n, Hl : slept ?st = repeat _ ?n |- _ =>
      cbn [snd fst]; unfold paced, paced_even;
      lazymatch goal with
      | |- exists _ _, _ => eexists _, _
      | |- exists _, _ => eexists
      end;
      cbn [spawned slept begin_op add_console add_file add_spawned add_slept
           add_inspection set_check_count mark_interrupted];
      rewrite Hs, Hl, ?repeat_snoc;
      repeat split; try reflexivity; lia
  end.

Section Paced.

Variable env : Env.
Variables (check_label stop_label target log : string).
Variables (port interval : Z).

Local Abbreviation cmd := (ssl_cmd target port, 30).

Lemma poll_once_paced st :
  paced_even cmd interval st ->
  match poll_once check_label target port interval log env st with
  | (Ret _, st') => paced_even cmd interval st'
  | (_, st') => paced cmd interval st'
  end.
Proof.
  intros (n & Hs & Hl). unfold poll_once. unfold_ops.
  destruct (check_count st) as [c|] eqn:Hcc; cbn; [|solve_paced].
  repeat exec_one; solve_paced.
Qed.

Lemma while_true_paced fuel : forall st,
  paced_even cmd interval st ->
  paced cmd interval
    (snd (@while_true unit fuel
            (poll_once check_label target port interval log) env st)).
Proof.
  induction fuel as [|fuel IH]; intros st Hp;
    [now apply paced_even_paced|].
  cbn [while_true]. unfold bind.
  pose proof (poll_once_paced st Hp) as H.
  destruct (poll_once _ _ _ _ _ env st) as [[[]|e|] st1]; cbn [snd];
    try exact H.
  now apply IH.
Qed.

Lemma on_interrupt_paced st :
  spawned (snd (on_interrupt stop_label log env st)) = spawned st
  /\ slept (snd (on_interrupt stop_label log env st)) = slept st.
Proof.
  unfold on_interrupt. unfold_ops.
  destruct (sigint_at env (ops st)); cbn; [split; reflexivity|].
  destruct (check_count st) as [c|] eqn:Hcc; cbn; [|split; reflexivity].
  repeat exec_one; split; reflexivity.
Qed.

Lemma paced_ext st st' :
  spawned st' = spawned st -> slept st' = slept st ->
  paced cmd interval st -> paced cmd interval st'.
Proof. unfold paced. now intros -> ->. Qed.

Lemma monitor_paced fuel st :
  paced_even cmd interval st ->
  paced cmd interval
    (snd (monitor fuel check_label stop_label target port interval log env st)).
Proof.
  intros Hp. unfold monitor, try_except, bind at 1, init_check_count, prim.
  destruct (on_interrupt_paced (mark_interrupted Assign (begin_op st)))
    as [Hs0 Hl0].
  destruct (sigint_at env (ops st)).
  - cbn [select is_KeyboardInterrupt].
    apply (paced_ext st); [exact Hs0 | exact Hl0 | now apply paced_even_paced].
  - assert (Hp' : paced_even cmd interval (set_check_count 0 (begin_op st)))
      by exact Hp.
    pose proof (while_true_paced fuel _ Hp') as H.
    destruct (while_true fuel _ env _) as [[[]|e|] st1]; cbn [snd] in *;
      try exact H.
    destruct e; cbn [select is_KeyboardInterrupt snd]; try exact H.
    destruct (on_interrupt_paced st1) as [Hs1 Hl1].
    now apply (paced_ext st1).
Qed.

End Paced.

Ltac main_paced :=
  lazymatch goal with
  | |- paced _ _ (snd (monitor _ _ _ _ _ _ _ _ _)) =>
      apply monitor_paced; exists 0%nat; split; reflexivity
  | _ => cbn [snd]; exists 0%nat, 0%nat; repeat split; lia
  end.

Lemma V2_main_paced env fuel argv :
  paced (ssl_cmd "login.emory.edu" 443, 30) (V2_interval argv)
    (snd (V2.main fuel argv env initial)).
Proof.
  unfold V2.main, announce, int_of, V2_interval.
  destruct argv as [|prog [|arg rest]]; [| |destruct (Py.int arg)];
    exec; main_paced.
Qed.

Lemma V3_main_paced env fuel args :
  paced (ssl_cmd (V3.website args) (V3.port args), 30) (V3.interval args)
    (snd (V3.main fuel args env initial)).
Proof. unfold V3.main, announce. exec; main_paced. Qed.

Lemma ServerWebsite_main_paced env fuel args hostname port :
  parse_hostname_port (ServerWebsite.server args) env initial
  = (Ret (hostname, port), initial) ->
  paced (ssl_cmd hostname port, 30) (ServerWebsite.interval args)
    (snd (ServerWebsite.main fuel args env initial)).
Proof.
  intros Hparse. unfold ServerWebsite.main, announce.
  destruct (ServerWebsite.interval args <=? 0); [exec; main_paced|].
  unfold bind at 1. unfold ret at 1. unfold bind at 1. rewrite Hparse.
  exec; main_paced.
Qed.

(** X9: in every run of a logging script, every child process is the
    same [bash -c] command for the configured target, started with timeout
    30, every completed sleep lasts the configured interval, and checks and
    sleeps alternate, beginning with a check: no two checks without a sleep
    between them.  [ssl_checker_with_server_and_website.py] connects to the
    host and port of its server argument; the website name is a label. *)
Theorem checks_and_sleeps_alternate env fuel :
  (forall argv,
     paced (ssl_cmd "login.emory.edu" 443, 30) (V2_interval argv)
       (snd (run (V2.main fuel argv) env)))
  /\ (forall args,
        paced (ssl_cmd (V3.website args) (V3.port args), 30)
          (V3.interval args) (snd (run (V3.main fuel args) env)))
  /\ (forall args hostname port,
        parse_hostname_port (ServerWebsite.server args) env initial
        = (Ret (hostname, port), initial) ->
        paced (ssl_cmd hostname port, 30) (ServerWebsite.interval args)
          (snd (run (ServerWebsite.main fuel args) env))).
Proof.
  split; [|split]; intros; rewrite snd_run.
  - apply V2_main_paced.
  - apply V3_main_paced.
  - now apply ServerWebsite_main_paced.
Qed.

Lemma checks_and_sleeps_alternate_witness :
  paced (ssl_cmd "intidpappprd101.cc.emory.edu" 8443, 30) 5
    (snd (run (ServerWebsite.main 4
                 {| ServerWebsite.server := "intidpappprd101.cc.emory.edu:8443";
                    ServerWebsite.website := "login.emory.edu";
                    ServerWebsite.interval := 5 |})
              (steady (Some 25%nat) (Fails "") None))).
Proof.
  destruct (checks_and_sleeps_alternate (steady (Some 25%nat) (Fails "") None) 4)
    as (_ & _ & H).
  apply H. reflexivity.
Defined.

(** ** [ssl_checker_with_server_and_website.py] as a whole *)

Lemma ServerWebsite_main_cases env fuel args :
  main_post env (ServerWebsite_rejected args) (ServerWebsite.interval args)
    fuel (ServerWebsite.main fuel args env initial).
Proof.
  unfold ServerWebsite_rejected, ServerWebsite.main, announce,
    parse_hostname_port, int_of. unfold_ops.
  destruct (Z.leb_spec (ServerWebsite.interval args) 0) as [Hi|Hi]; cbn.
  { destruct (sigint_at env 0) eqn:?; cbn; [|right]; close_main; auto. }
  destruct (Py.contains ":" (ServerWebsite.server args)) eqn:Hc.
  - destruct (rsplit_last_spec _ Hc) as (h & p & E & _ & _).
    unfold Py.rsplit1. rewrite E. destruct (Py.int p) as [n|] eqn:En; cbn.
    + assert (Hok : ~ (ServerWebsite.interval args <= 0
                       \/ exists h' p', Some (h, p) = Some (h', p')
                                        /\ Py.int p' = None))
        by (intros [?|(h' & p' & [= <- <-] & ?)]; [lia | congruence]).
      repeat exec_one; try enter_monitor; close_main; left; close_main.
    + destruct (sigint_at env 0) eqn:?; cbn; [|right]; close_main; eauto 6.
  - assert (Hnone : Py.rsplit_last ":" (ServerWebsite.server args) = None)
      by now apply rsplit_last_None.
    rewrite Hnone.
    assert (Hok : ~ (ServerWebsite.interval args <= 0
                     \/ exists h' p', @None (string * string) = Some (h', p')
                                      /\ Py.int p' = None))
      by (intros [?|(h' & p' & [=] & ?)]; lia).
    cbn. repeat exec_one; try enter_monitor; close_main; left; close_main.
Qed.

(** X10: the exit status of [ssl_checker_with_server_and_website.py],
    command line included.  [argparse] ends it with status 0 for the help
    and with status 2 for a command line it rejects.  Otherwise the status
    is 1 when the interval is not positive or the text after the last colon
    of the server argument is not an integer for [int], and then before any
    child is started, and also when an exception is not caught
    ([UnboundLocalError] for a Ctrl+C just before [check_count] is bound,
    what [time.sleep] raises for an interval above [sleep_safe]); it is 0
    only from the interrupt handler, which is reached whenever Ctrl+C
    arrives once the loop runs and the interval is at most [sleep_safe];
    and on exit 0 [check_count] is the number of checks made, or one
    more. *)
Theorem ServerWebsite_exit_codes env fuel parser argv :
  match parser argv with
  | Namespace args =>
      exit_status_of env (ServerWebsite_rejected args)
        (ServerWebsite.interval args) fuel
        (run (ServerWebsite.script fuel parser argv) env)
      /\ (fst (run (ServerWebsite.script fuel parser argv) env) = Exited 0 ->
          counts_agree (snd (run (ServerWebsite.script fuel parser argv) env)))
  | Help text =>
      leaves_at_once env 0 [text]
        (run (ServerWebsite.script fuel parser argv) env)
  | Unparsable _ =>
      leaves_at_once env 2 []
        (run (ServerWebsite.script fuel parser argv) env)
  end.
Proof.
  pose proof (script_leaves parser argv (ServerWebsite.main fuel) env) as H.
  destruct (parser argv) as [args|text|message] eqn:E; try exact H.
  apply run_of_main_post. unfold ServerWebsite.script.
  rewrite (script_parsed parser argv args (ServerWebsite.main fuel) env initial E).
  apply ServerWebsite_main_cases.
Qed.

Lemma ServerWebsite_exit_codes_witness :
  fst (run (ServerWebsite.script 30
              (fun _ => Namespace {| ServerWebsite.server := "login.emory.edu:8443";
                                     ServerWebsite.website := "emory.edu";
                                     ServerWebsite.interval := 5 |})
              ["ssl_checker_with_server_and_website.py"; "-s";
               "login.emory.edu:8443"; "-w"; "emory.edu"; "-i"; "5"])
         (steady (Some 16%nat) (Fails "") None)) = Exited 0.
Proof.
  destruct (ServerWebsite_exit_codes (steady (Some 16%nat) (Fails "") None) 30
              (fun _ => Namespace {| ServerWebsite.server := "login.emory.edu:8443";
                                     ServerWebsite.website := "emory.edu";
                                     ServerWebsite.interval := 5 |})
              ["ssl_checker_with_server_and_website.py"; "-s";
               "login.emory.edu:8443"; "-w"; "emory.edu"; "-i"; "5"])
    as ((_ & _ & _ & _ & _ & Hgo) & _).
  apply (Hgo 16%nat); [reflexivity | lia | | unfold sleep_safe; simpl; lia].
  intros [Hi | (h & p & E & Hp)]; [simpl in Hi; lia|].
  vm_compute in E. injection E as <- <-. vm_compute in Hp. discriminate Hp.
Defined.

(** ** Console and log file of the other scripts *)

Ltac main_logged env writable :=
  try exact I; try (left; reflexivity);
  match goal with
  | |- context [monitor ?f ?cl ?sl ?t ?p ?i ?l env ?s0] =>
      let H := fresh "H" in
      pose proof (monitor_logged env writable cl sl t l p i f s0) as H;
      destruct (monitor f cl sl t p i l env s0) as [[[]|[]|] st'];
      try exact I;
      right;
      destruct H as [H|H];
      [ apply synced_after_banner; reflexivity
      | left; exact H
      | right; exists l; exact H ]
  end.

Lemma V3_main_logged env fuel args :
  (forall n, env_fs env n = None) ->
  match V3.main fuel args env initial with
  | (Raise (SystemExit code), st) =>
      code = 1 \/ interrupted st = Some FileAppend \/ exists log, synced log st
  | _ => True
  end.
Proof.
  intros writable. unfold V3.main, announce. exec; main_logged env writable.
Qed.

Lemma ServerWebsite_main_logged env fuel args :
  (forall n, env_fs env n = None) ->
  match ServerWebsite.main fuel args env initial with
  | (Raise (SystemExit code), st) =>
      code = 1 \/ interrupted st = Some FileAppend \/ exists log, synced log st
  | _ => True
  end.
Proof.
  intros writable.
  unfold ServerWebsite.main, announce, parse_hostname_port, int_of.
  destruct (ServerWebsite.interval args <=? 0);
    [exec; main_logged env writable|].
  destruct (Py.contains ":" (ServerWebsite.server args)).
  - destruct (Py.rsplit1 ":" (ServerWebsite.server args)) as [|h [|p [|x l]]];
      try (exec; main_logged env writable).
    destruct (Py.int p); exec; main_logged env writable.
  - exec; main_logged env writable.
Qed.

(** X11: in [ssl_checkV3.py] and [ssl_checker_with_server_and_website.py]
    too, when every write to the log succeeds, the run ends with code 0 and
    Ctrl+C did not pre-empt a log write, the log file holds the texts written
    to the console, in the same order, except for the hint
    "Press Ctrl+C to stop". *)
Theorem log_mirrors_console_elsewhere env fuel st :
  (forall n, env_fs env n = None) ->
  interrupted st <> Some FileAppend ->
  (forall args,
     run (V3.main fuel args) env = (Exited 0, st) ->
     exists log banner rest,
       console st = banner :: hint_text :: rest
       /\ files st = {[ log := banner :: rest ]})
  /\ (forall args,
        run (ServerWebsite.main fuel args) env = (Exited 0, st) ->
        exists log banner rest,
          console st = banner :: hint_text :: rest
          /\ files st = {[ log := banner :: rest ]}).
Proof.
  intros writable Hx. split; intros args E; unfold run in E.
  - pose proof (V3_main_logged env fuel args writable) as Hl.
    pose proof (V3_main_cases env fuel args) as Hc.
    destruct (V3.main fuel args env initial) as [[[]|[]|] st'];
      try discriminate E; try contradiction.
    injection E as -> ->.
    destruct Hl as [Hl | [Hl | (log & banner & rest & H1 & H2)]];
      [discriminate Hl | contradiction | eauto].
  - pose proof (ServerWebsite_main_logged env fuel args writable) as Hl.
    pose proof (ServerWebsite_main_cases env fuel args) as Hc.
    destruct (ServerWebsite.main fuel args env initial) as [[[]|[]|] st'];
      try discriminate E; try contradiction.
    injection E as -> ->.
    destruct Hl as [Hl | [Hl | (log & banner & rest & H1 & H2)]];
      [discriminate Hl | contradiction | eauto].
Qed.

Lemma log_mirrors_console_elsewhere_witness :
  exists st log banner rest,
    run (V3.main 2 {| V3.website := "login.emory.edu"; V3.port := 443;
                      V3.interval := 60 |})
        (steady (Some 16%nat) (Exits 0 "subject=CN = login.emory.edu" "") None)
    = (Exited 0, st)
    /\ console st = banner :: hint_text :: rest
    /\ files st = {[ log := banner :: rest ]}.
Proof.
  eexists.
  edestruct (log_mirrors_console_elsewhere
               (steady (Some 16%nat) (Exits 0 "subject=CN = login.emory.edu" "") None)
               2) as [H _].
  - reflexivity.
  - shelve.
  - edestruct (H {| V3.website := "login.emory.edu"; V3.port := 443;
                    V3.interval := 60 |}) as (log & banner & rest & Hc & Hf).
    + vm_compute. reflexivity.
    + exists log, banner, rest. split; [vm_compute; reflexivity|].
      split; [exact Hc | exact Hf].
  Unshelve. vm_compute. discriminate.
Defined.

(** ** [ssl_check.py] as a whole *)

Global Arguments V1.monitor : simpl never.

Section First.

Variable env : Env.
Variables (hostname : string) (port interval : Z).

Lemma V1_poll_once_spec st :
  armed env st ->
  match V1.poll_once hostname port interval env st with
  | (Ret _, st') =>
      armed env st' /\ (ops st < ops st')%nat /\ 0 <= interval <= sleep_max
      /\ files st' = files st /\ check_count st' = check_count st
      /\ interrupted st' = interrupted st
  | (Raise KeyboardInterrupt, st') =>
      sigint_past env st' /\ interrupted st' <> None
      /\ files st' = files st /\ check_count st' = check_count st
  | (Raise (SystemExit _), _) => False
  | (Raise e, st') =>
      sleep_raises interval e /\ files st' = files st
      /\ check_count st' = check_count st
      /\ interrupted st' = interrupted st /\ (1 <= inspections st')%nat
  | (Running, _) => False
  end.
Proof.
  intros Ha. unfold V1.poll_once.
  exec;
    repeat match goal with
    | |- _ /\ _ => split
    end;
    try reflexivity; try discriminate; try lia; try assumption;
    sigint_facts.
Qed.

Lemma V1_while_true_spec fuel : forall st,
  armed env st ->
  match @while_true unit fuel (V1.poll_once hostname port interval) env st with
  | (Running, st') =>
      armed env st' /\ (ops st + fuel <= ops st')%nat
      /\ files st' = files st /\ check_count st' = check_count st
      /\ interrupted st' = interrupted st
  | (Raise KeyboardInterrupt, st') =>
      sigint_past env st' /\ interrupted st' <> None
      /\ files st' = files st /\ check_count st' = check_count st
  | (Raise (SystemExit _), _) => False
  | (Raise e, st') =>
      sleep_raises interval e /\ files st' = files st
      /\ check_count st' = check_count st
      /\ interrupted st' = interrupted st /\ (1 <= inspections st')%nat
  | (Ret _, _) => False
  end.
Proof.
  induction fuel as [|fuel IH]; intros st Ha.
  - cbn. rewrite Nat.add_0_r. auto.
  - cbn [while_true]. unfold bind.
    pose proof (V1_poll_once_spec st Ha) as H.
    destruct (V1.poll_once hostname port interval env st) as [[[]|e|] st1];
      [| exact H | destruct H].
    destruct H as (Ha1 & Ho1 & _ & Hf1 & Hc1 & Hx1).
    specialize (IH st1 Ha1).
    destruct (while_true fuel _ env st1) as [[[]|[]|] st2]; try exact IH;
      repeat match goal with H : _ /\ _ |- _ => destruct H end;
      repeat match goal with |- _ /\ _ => split end;
      try congruence; try assumption; lia.
Qed.

Lemma V1_monitor_spec fuel st :
  armed env st ->
  match V1.monitor fuel hostname port interval env st with
  | (Raise (SystemExit code), st') =>
      code = 0 /\ interrupted st' <> None
      /\ files st' = files st /\ check_count st' = check_count st
  | (Raise KeyboardInterrupt, _) => False
  | (Raise e, st') =>
      sleep_raises interval e /\ files st' = files st
      /\ check_count st' = check_count st
      /\ interrupted st' = interrupted st /\ (1 <= inspections st')%nat
  | (Running, st') =>
      armed env st' /\ (ops st + fuel <= ops st')%nat
      /\ files st' = files st /\ check_count st' = check_count st
      /\ interrupted st' = interrupted st
  | (Ret _, _) => False
  end.
Proof.
  intros Ha. unfold V1.monitor, try_except.
  pose proof (V1_while_true_spec fuel st Ha) as H.
  destruct (while_true fuel _ env st) as [[[]|[]|] st1];
    try contradiction; cbn [select is_KeyboardInterrupt]; try exact H.
  destruct H as (Hp & Hx & Hf & Hc).
  unfold_ops. rewrite (sigint_past_at env st1 (ops st1) Hp) by lia.
  cbn. repeat split; assumption.
Qed.

End First.

Ltac enter_V1_monitor :=
  match goal with
  | |- context [V1.monitor ?f ?h ?p ?i ?env ?s0] =>
      let H := fresh "HM" in
      let Ha := fresh "Ha" in
      let s1 := fresh "st" in
      assert (Ha : armed env s0) by sigint_facts;
      pose proof (V1_monitor_spec env h p i f s0 Ha) as H;
      clear Ha;
      destruct (V1.monitor f h p i env s0) as [[[]|[]|] s1];
      try contradiction; cbn in H
  end.

Lemma V1_main_cases env fuel argv :
  V1_post env (V2_rejected argv) (V2_interval argv) fuel
    (V1.main fuel argv env initial).
Proof.
  unfold V2_rejected, V2_interval.
  assert (Hno : forall prog, ~ exists p a r, [prog] = p :: a :: r /\ Py.int a = None)
    by (intros prog (p & a & r & E & _); discriminate E).
  assert (Hnil : ~ exists p a r, @nil string = p :: a :: r /\ Py.int a = None)
    by (intros (p & a & r & E & _); discriminate E).
  unfold V1.main, V1_post.
  destruct argv as [|prog [|arg rest]].
  - exec; try enter_V1_monitor; close_main; left; close_main.
  - specialize (Hno prog).
    exec; try enter_V1_monitor; close_main; left; close_main.
  - clear Hno Hnil. unfold int_of.
    destruct (Py.int arg) as [n|] eqn:En.
    + assert (Hok : ~ exists p a r, prog :: arg :: rest = p :: a :: r /\ Py.int a = None)
        by (intros (p & a & r & E & Ea); injection E as <- <- <-; congruence).
      exec; try enter_V1_monitor; close_main; left; close_main.
    + exec; close_main; right; close_main; eauto.
Qed.

(** X12: [ssl_check.py] never writes to a file.  Its exit status is 0
    only after Ctrl+C, and it is 0 whenever Ctrl+C arrives once the three
    start-up lines are printed and the interval is one [time.sleep] grants.
    It is 1 for an interval argument that [int] rejects, before any child is
    started, and also when [time.sleep] raises for an interval below 0 or
    above [sleep_safe], after a check has been made; there is no other exit
    code.  Its handler reads no variable, so no run ends in
    [UnboundLocalError]. *)
Theorem V1_behaviour env fuel argv :
  files (snd (run (V1.main fuel argv) env)) = ∅
  /\ (status (fst (run (V1.main fuel argv) env)) = Some (ExitCode 0) ->
      ~ V2_rejected argv
      /\ interrupted (snd (run (V1.main fuel argv) env)) <> None)
  /\ (status (fst (run (V1.main fuel argv) env)) = Some (ExitCode 1) ->
      (V2_rejected argv /\ fst (run (V1.main fuel argv) env) = Exited 1
       /\ spawned (snd (run (V1.main fuel argv) env)) = [])
      \/ (~ V2_rejected argv
          /\ (1 <= inspections (snd (run (V1.main fuel argv) env)))%nat
          /\ exists e,
               fst (run (V1.main fuel argv) env) = Uncaught e
               /\ sleep_raises (V2_interval argv) e))
  /\ (forall c,
        status (fst (run (V1.main fuel argv) env)) = Some (ExitCode c) ->
        c = 0 \/ c = 1)
  /\ (forall m, fst (run (V1.main fuel argv) env) <> Uncaught (UnboundLocalError m))
  /\ (forall k,
        env_sigint env = Some k -> (3 <= k < fuel)%nat ->
        ~ V2_rejected argv -> 0 <= V2_interval argv <= sleep_safe ->
        fst (run (V1.main fuel argv) env) = Exited 0).
Proof.
  pose proof (V1_main_cases env fuel argv) as H. unfold V1_post, run in *.
  destruct (V1.main fuel argv env initial) as [[[]|[]|] st];
    cbn [fst snd status] in *;
    destruct H as (Hf & Hc & H); try contradiction;
    (split; [exact Hf|]).
  all: try (destruct H as (_ & [] & _); fail).
  - destruct H as (Hs & k & Hk & Hlt).
    repeat split; try discriminate.
    intros k' Hk'. rewrite Hk in Hk'. injection Hk' as <-. lia.
  - destruct H as [(-> & Hr & Hx) | (-> & Hr & Hs)];
      repeat split; try discriminate; auto; try contradiction.
    + intros c [= <-]. now left.
    + intros c [= <-]. now right.
  - destruct H as (Hr & Hs & Hx & Hi).
    repeat split; try discriminate.
    + intros _. right. eauto 8.
    + intros c [= <-]. now right.
    + intros k Hk Hlt _ Hint. unfold sleep_raises, sleep_max in Hs. lia.
  - destruct H as (Hr & Hs & Hx & Hi).
    repeat split; try discriminate.
    + intros _. right. eauto 8.
    + intros c [= <-]. now right.
    + intros k Hk Hlt _ Hint. unfold sleep_raises, sleep_safe, sleep_max in *. lia.
  - destruct H as (Hr & Hs & Hx & Hi).
    repeat split; try discriminate.
    + intros _. right. eauto 8.
    + intros c [= <-]. now right.
    + intros k Hk Hlt _ Hint. unfold sleep_raises, sleep_safe, sleep_max in *. lia.
  - destruct H as (Hr & Hk). repeat split; try discriminate.
    intros k Hk' Hlt. specialize (Hk k Hk'). lia.
Qed.

Lemma V1_behaviour_witness :
  fst (run (V1.main 10 ["ssl_check.py"; "30"])
         (steady (Some 3%nat) (Fails "") None)) = Exited 0.
Proof.
  destruct (V1_behaviour (steady (Some 3%nat) (Fails "") None) 10
              ["ssl_check.py"; "30"]) as (_ & _ & _ & _ & _ & Hgo).
  apply (Hgo 3%nat); [reflexivity | lia | |].
  - intros (p & a & r & E & Ha). injection E as <- <- <-.
    vm_compute in Ha. discriminate Ha.
  - unfold sleep_safe. vm_compute. split; discriminate.
Defined.

(** ** What a rejected configuration leaves behind *)

(** X13: when [ssl_checkV3.py] rejects its configuration and Ctrl+C does
    not arrive first, it exits with code 1 having printed one line, the
    complaint about the interval if the interval is not positive and
    otherwise the complaint about the port, and nothing else: no banner, no
    log file, no child, no sleep. *)
Theorem V3_rejection_report env fuel args :
  sigint_at env 0 = false -> V3_rejected args ->
  exists st,
    run (V3.main fuel args) env = (Exited 1, st)
    /\ console st
       = [ (if V3.interval args <=? 0
            then "Error: Interval must be a positive number"
            else "Error: Port must be between 1 and 65535") +:+ nl ]
    /\ files st = ∅ /\ spawned st = [] /\ slept st = [].
Proof.
  intros H0 Hr. unfold run, V3.main. unfold_ops.
  destruct (Z.leb_spec (V3.interval args) 0) as [Hi|Hi].
  - cbn. rewrite H0. cbn. eexists. repeat split.
  - destruct Hr as [Hr | Hr]; [lia|].
    assert (E : (V3.port args <=? 0) || (65535 <? V3.port args) = true).
    { apply orb_true_iff. destruct Hr; [left; apply Z.leb_le | right; apply Z.ltb_lt]; lia. }
    cbn. rewrite E. cbn. rewrite H0. cbn. eexists. repeat split.
Qed.

Lemma V3_rejection_report_witness :
  exists st,
    run (V3.main 5 {| V3.website := "login.emory.edu"; V3.port := 70000;
                      V3.interval := 60 |})
        (steady None (Fails "") None) = (Exited 1, st)
    /\ console st = ["Error: Port must be between 1 and 65535" +:+ nl].
Proof.
  destruct (V3_rejection_report (steady None (Fails "") None) 5
              {| V3.website := "login.emory.edu"; V3.port := 70000;
                 V3.interval := 60 |} eq_refl)
    as (st & E & Hc & _).
  - right. right. simpl. lia.
  - exists st. split; [exact E | exact Hc].
Defined.

(** ** Intervals that are not positive *)

Lemma poll_once_negative env cl target port interval log st c :
  env_sigint env = None -> - sleep_max <= interval < 0 ->
  check_count st = Some c ->
  exists st',
    poll_once cl target port interval log env st
    = (Raise (ValueError "sleep length must be non-negative"), st')
    /\ inspections st' = S (inspections st)
    /\ spawned st' = spawned st ++ [(ssl_cmd target port, 30)]
    /\ slept st' = slept st.
Proof.
  intros Hn Hi Hc. unfold poll_once.
  destruct st as [o con fl sp sl insp intr cc]. cbn in Hc. subst cc.
  pose proof (fun r => sleep_error_negative interval r Hi) as Hs.
  exec; eexists; repeat split.
Qed.

Lemma monitor_negative env fuel cl sl target port interval log st :
  env_sigint env = None -> - sleep_max <= interval < 0 ->
  exists st',
    monitor (S fuel) cl sl target port interval log env st
    = (Raise (ValueError "sleep length must be non-negative"), st')
    /\ inspections st' = S (inspections st)
    /\ spawned st' = spawned st ++ [(ssl_cmd target port, 30)]
    /\ slept st' = slept st.
Proof.
  intros Hn Hi. unfold monitor, try_except, bind at 1, init_check_count, prim.
  rewrite (sigint_at_None _ _ Hn). cbn [while_true]. unfold bind at 1.
  destruct (poll_once_negative env cl target port interval log
              (set_check_count 0 (begin_op st)) 0%nat Hn Hi eq_refl)
    as (st' & E & H).
  rewrite E. cbn [select is_KeyboardInterrupt]. exists st'.
  split; [reflexivity | exact H].
Qed.

(** X14: started with an interval argument that [int] reads as a negative
    number, not below [- sleep_max], and left alone, [ssl_checkV2.py] prints
    its banner, makes exactly one check and then ends with the uncaught
    [ValueError] of [time.sleep], which gives exit status 1; it never
    sleeps. *)
Theorem negative_interval_one_check env fuel prog arg rest n :
  env_sigint env = None -> Py.int arg = Some n -> - sleep_max <= n < 0 ->
  exists st,
    run (V2.main (S fuel) (prog :: arg :: rest)) env
    = (Uncaught (ValueError "sleep length must be non-negative"), st)
    /\ status (fst (run (V2.main (S fuel) (prog :: arg :: rest)) env))
       = Some (ExitCode 1)
    /\ inspections st = 1%nat
    /\ spawned st = [(ssl_cmd "login.emory.edu" 443, 30)]
    /\ slept st = [].
Proof.
  intros Hn Hint Hneg. unfold run, V2.main, announce, int_of. rewrite Hint.
  exec;
    (edestruct monitor_negative as (st' & E & Hi & Hs & Hl);
     [exact Hn | exact Hneg |
      rewrite E; exists st'; rewrite Hi, Hs, Hl; repeat split]).
Qed.

Lemma negative_interval_one_check_witness :
  exists st,
    run (V2.main 3 ["ssl_checkV2.py"; "-1"]) (steady None (Exits 0 "" "") None)
    = (Uncaught (ValueError "sleep length must be non-negative"), st)
    /\ inspections st = 1%nat.
Proof.
  destruct (negative_interval_one_check (steady None (Exits 0 "" "") None) 2
              "ssl_checkV2.py" "-1" [] (-1) eq_refl eq_refl)
    as (st & E & _ & Hi & _); [unfold sleep_max; lia|].
  exists st. split; [exact E | exact Hi].
Defined.

(** ** Polling without end *)

(** X15: left alone, a script with an accepted configuration and an
    interval of at most [sleep_safe] seconds polls on, whatever the children
    and the file system do.  [ssl_checkV2.py] with an interval argument that
    [int] reads as [n], from 0 on, and
    [ssl_checker_with_server_and_website.py] with a positive interval and a
    server argument that parses, whatever its port, are still running after
    any number [fuel] of passes, with [fuel] checks made and [fuel] sleeps
    of the configured interval. *)
Theorem polling_goes_on env fuel :
  env_sigint env = None ->
  (forall prog arg rest n,
     Py.int arg = Some n -> 0 <= n <= sleep_safe ->
     exists st,
       run (V2.main fuel (prog :: arg :: rest)) env = (StillRunning, st)
       /\ polled fuel "login.emory.edu" 443 n st)
  /\ (forall args hostname port,
        0 < ServerWebsite.interval args <= sleep_safe ->
        parse_hostname_port (ServerWebsite.server args) env initial
        = (Ret (hostname, port), initial) ->
        exists st,
          run (ServerWebsite.main fuel args) env = (StillRunning, st)
          /\ polled fuel hostname port (ServerWebsite.interval args) st).
Proof.
  intros Hn. split.
  - intros prog arg rest n Hint Hpos.
    unfold run, V2.main, announce, int_of. rewrite Hint.
    exec;
      (edestruct monitor_quiet_initial as (st' & E & H);
       [exact Hn | | | | | | rewrite E; exists st'; split; [reflexivity | exact H]];
       (reflexivity || lia)).
  - intros args hostname port Hi Hparse.
    unfold run, ServerWebsite.main, announce.
    assert (E1 : (ServerWebsite.interval args <=? 0) = false)
      by (apply Z.leb_gt; lia).
    rewrite E1. unfold bind at 1. unfold ret at 1. unfold bind at 1.
    rewrite Hparse.
    exec;
      (edestruct monitor_quiet_initial as (st' & E & H);
       [exact Hn | | | | | | rewrite E; exists st'; split; [reflexivity | exact H]];
       (reflexivity || lia)).
Qed.

Lemma polling_goes_on_witness :
  exists st,
    run (V2.main 4 ["ssl_checkV2.py"; "0"])
        (steady None (TimesOut "") (Some "[Errno 28] No space left on device"))
    = (StillRunning, st)
    /\ polled 4 "login.emory.edu" 443 0 st.
Proof.
  destruct (polling_goes_on
              (steady None (TimesOut "") (Some "[Errno 28] No space left on device"))
              4 eq_refl) as [H _].
  apply (H "ssl_checkV2.py" "0" [] 0); [reflexivity | unfold sleep_safe; lia].
Defined.
